(** * Atlas AI intent recognition and dispatch: a shallow embedding

    The development follows [backend/services/intent_recognition.py],
    [backend/services/assistant_service.py] and the recognition endpoint of
    [backend/services/assistant_api.py].

    - A Python [str] is a [string]; its characters are read as the code
      points 0..255, on which [str.lower], [str.strip], [str.isspace] and the
      [re] module of CPython are modelled exactly.  Texts with code points
      above 255 are outside the development; among them are the only texts
      whose length [str.lower] changes (U+0130 becomes two code points).
    - A Python [float] is an IEEE 754 binary64 number, [spec_float] with
      [prec = 53] and [emax = 1024]; every arithmetic operation rounds to
      nearest, ties to even, as the interpreter does.
    - The patterns of the two tables are kept as the source writes them and
      are read by a parser for the part of the [re] syntax they use.
    - The recognizer raises instances of [Exception] only: [Raise e], with
      [e] what [str(e)] prints.  The capability handlers live outside these
      files: a handler is any function that returns a response, raises an
      instance of [Exception], or raises another [BaseException]
      ([asyncio.CancelledError], [KeyboardInterrupt], [SystemExit]), which
      [except Exception] does not catch.
    - Logging is left out, and [await] is a plain call: one request is
      processed from start to end; a cancellation that arrives while the
      handler is awaited is the handler raising [asyncio.CancelledError].
    - Fields that several records share carry a prefix ([i_type],
      [e_type], [h_success], ...). *)

From Stdlib Require Import Bool List ZArith Lia Ascii String.
From Stdlib Require Import SpecFloat.
Import ListNotations.

Set Implicit Arguments.

(** ** Characters and strings *)

Module Chars.

Definition code (c : ascii) : N := N_of_ascii c.

Definition in_range (lo hi : N) (c : ascii) : bool :=
  ((lo <=? code c) && (code c <=? hi))%N.

(** [str.isspace] on one code point below 256. *)
Definition isspace (c : ascii) : bool :=
  in_range 9 13 c || in_range 28 32 c
  || (code c =? 133)%N || (code c =? 160)%N.

(** Decimal digits, the class [\d]. *)
Definition isdigit (c : ascii) : bool := in_range 48 57 c.

(** [str.lower] on one code point below 256: the letters A-Z and the
    Latin-1 capitals (all of 192..222 but the multiplication sign).  Below
    256 every code point lower-cases to one code point below 256. *)
Definition lower_char (c : ascii) : ascii :=
  if in_range 65 90 c || (in_range 192 222 c && negb (code c =? 215)%N)
  then ascii_of_N (code c + 32) else c.

(** Simple upper-casing as the regex engine uses it for case-insensitive
    sets; a letter whose capital lies above 255 keeps its value, since no
    set of the tables holds such a capital. *)
Definition upper_char (c : ascii) : ascii :=
  if in_range 97 122 c || (in_range 224 254 c && negb (code c =? 247)%N)
  then ascii_of_N (code c - 32) else c.

Definition chars_of (s : string) : list ascii := list_ascii_of_string s.
Definition str_of (l : list ascii) : string := string_of_list_ascii l.

(** [str.lower] on a text over the code points below 256, where it works
    character by character and keeps the length. *)
Definition lower (s : string) : string := str_of (map lower_char (chars_of s)).

Fixpoint lstrip (l : list ascii) : list ascii :=
  match l with
  | c :: l' => if isspace c then lstrip l' else l
  | [] => []
  end.

Definition rstrip (l : list ascii) : list ascii := rev (lstrip (rev l)).

(** [str.strip()] with no argument. *)
Definition strip (s : string) : string := str_of (rstrip (lstrip (chars_of s))).

Fixpoint starts_with (p l : list ascii) : bool :=
  match p, l with
  | [], _ => true
  | a :: p', b :: l' => Ascii.eqb a b && starts_with p' l'
  | _ :: _, [] => false
  end.

Fixpoint contains_chars (p l : list ascii) : bool :=
  starts_with p l ||
  match l with
  | [] => false
  | _ :: l' => contains_chars p l'
  end.

(** The Python test [needle in text] on strings. *)
Definition contains (needle text : string) : bool :=
  contains_chars (chars_of needle) (chars_of text).

(** All 256 characters, for properties decided by enumeration. *)
Definition all_chars : list ascii := map ascii_of_nat (seq 0 256).

End Chars.
Import Chars.

(** ** Regular expressions: the part of Python's [re] the tables use *)

Module Regex.

Inductive citem : Type :=
| CChar (c : ascii)
| CRange (lo hi : ascii)
| CSpace
| CDigit.

Inductive re : Type :=
| Eps
| Cls (neg : bool) (items : list citem)
| Seq (r1 r2 : re)
| Alt (r1 r2 : re)
| Rep (lo : nat) (hi : option nat) (r : re).

Definition lit (c : ascii) : re := Cls false [CChar c].

Definition item_in (c : ascii) (i : citem) : bool :=
  match i with
  | CChar a => Ascii.eqb a c
  | CRange lo hi => in_range (code lo) (code hi) c
  | CSpace => isspace c
  | CDigit => isdigit c
  end.

Definition set_in (neg : bool) (items : list citem) (c : ascii) : bool :=
  xorb neg (existsb (item_in c) items).

(** One character against a literal or a set.  With [re.IGNORECASE] the
    engine tests the lower-cased character and then its upper-cased form. *)
Definition cls_match (ic neg : bool) (items : list citem) (c : ascii) : bool :=
  if ic
  then set_in neg items (lower_char c) || set_in neg items (upper_char (lower_char c))
  else set_in neg items c.

(** Backtracking matcher in continuation style: alternatives are tried from
    left to right and every quantifier is greedy, so the first success is
    the match CPython reports at this position.  [k] receives the rest of
    the text.  An unbounded repeat may run at most once per remaining
    character. *)
Fixpoint mtch (ic : bool) (r : re) (s : list ascii)
         (k : list ascii -> option (list ascii)) {struct r} : option (list ascii) :=
  match r with
  | Eps => k s
  | Cls neg items =>
      match s with
      | [] => None
      | c :: s' => if cls_match ic neg items c then k s' else None
      end
  | Seq r1 r2 => mtch ic r1 s (fun s' => mtch ic r2 s' k)
  | Alt r1 r2 =>
      match mtch ic r1 s k with
      | Some x => Some x
      | None => mtch ic r2 s k
      end
  | Rep lo hi r1 =>
      (fix loop (budget need : nat) (s : list ascii) {struct budget} :=
         let stop := match need with 0 => k s | S _ => None end in
         match budget with
         | 0 => stop
         | S b =>
             match mtch ic r1 s (fun s' => loop b (pred need) s') with
             | Some x => Some x
             | None => stop
             end
         end)
        (match hi with Some h => h | None => List.length s end) lo s
  end.

(** Length of the match that starts at the head of [s], if there is one. *)
Definition match_here (ic : bool) (r : re) (s : list ascii) : option nat :=
  match mtch ic r s (fun rest => Some rest) with
  | Some rest => Some (List.length s - List.length rest)
  | None => None
  end.

(** Leftmost match in [s], whose head is at offset [pos] of the text:
    start and end offsets. *)
Fixpoint search_from (ic : bool) (r : re) (s : list ascii) (pos : nat)
  : option (nat * nat) :=
  match match_here ic r s with
  | Some n => Some (pos, pos + n)
  | None =>
      match s with
      | [] => None
      | _ :: s' => search_from ic r s' (S pos)
      end
  end.

(** *** Reading a pattern *)

Fixpoint p_nat (s : list ascii) (acc : nat) : nat * list ascii :=
  match s with
  | c :: s' =>
      if isdigit c then p_nat s' (10 * acc + (nat_of_ascii c - 48)) else (acc, s)
  | [] => (acc, s)
  end.

(** The items of a set, after the opening bracket, up to the closing one. *)
Fixpoint p_items (s : list ascii) : option (list citem * list ascii) :=
  let cons_item i rest :=
    match rest with
    | Some (l, s') => Some (i :: l, s')
    | None => None
    end in
  match s with
  | [] => None
  | "]"%char :: s' => Some ([], s')
  | "\"%char :: "s"%char :: s' => cons_item CSpace (p_items s')
  | "\"%char :: "d"%char :: s' => cons_item CDigit (p_items s')
  | "\"%char :: c :: s' => cons_item (CChar c) (p_items s')
  | lo :: "-"%char :: "]"%char :: s' => Some ([CChar lo; CChar "-"%char], s')
  | lo :: "-"%char :: hi :: s' => cons_item (CRange lo hi) (p_items s')
  | c :: s' => cons_item (CChar c) (p_items s')
  end.

Definition p_quant (r : re) (s : list ascii) : re * list ascii :=
  match s with
  | "?"%char :: s' => (Rep 0 (Some 1) r, s')
  | "*"%char :: s' => (Rep 0 None r, s')
  | "+"%char :: s' => (Rep 1 None r, s')
  | "{"%char :: s' =>
      let (n, s1) := p_nat s' 0 in
      match s1 with
      | "}"%char :: s2 => (Rep n (Some n) r, s2)
      | ","%char :: s2 =>
          let (m, s3) := p_nat s2 0 in
          match s3 with
          | "}"%char :: s4 => (Rep n (Some m) r, s4)
          | _ => (r, s)
          end
      | _ => (r, s)
      end
  | _ => (r, s)
  end.

Fixpoint p_alt (n : nat) (s : list ascii) {struct n} : option (re * list ascii) :=
  match n with
  | 0 => None
  | S n' =>
      match p_seq n' s with
      | Some (r1, "|"%char :: s1) =>
          match p_alt n' s1 with
          | Some (r2, s2) => Some (Alt r1 r2, s2)
          | None => None
          end
      | other => other
      end
  end
with p_seq (n : nat) (s : list ascii) {struct n} : option (re * list ascii) :=
  match n with
  | 0 => None
  | S n' =>
      match s with
      | [] => Some (Eps, s)
      | "|"%char :: _ => Some (Eps, s)
      | ")"%char :: _ => Some (Eps, s)
      | _ =>
          match p_atom n' s with
          | Some (a, s1) =>
              let (a', s2) := p_quant a s1 in
              match p_seq n' s2 with
              | Some (Eps, s3) => Some (a', s3)
              | Some (r, s3) => Some (Seq a' r, s3)
              | None => None
              end
          | None => None
          end
      end
  end
with p_atom (n : nat) (s : list ascii) {struct n} : option (re * list ascii) :=
  match n with
  | 0 => None
  | S n' =>
      let group s1 :=
        match p_alt n' s1 with
        | Some (r, ")"%char :: s2) => Some (r, s2)
        | _ => None
        end in
      let set neg s1 :=
        match p_items s1 with
        | Some (items, s2) => Some (Cls neg items, s2)
        | None => None
        end in
      match s with
      | [] => None
      | "("%char :: "?"%char :: ":"%char :: s1 => group s1
      | "("%char :: s1 => group s1
      | "["%char :: "^"%char :: s1 => set true s1
      | "["%char :: s1 => set false s1
      | "\"%char :: "s"%char :: s1 => Some (Cls false [CSpace], s1)
      | "\"%char :: "d"%char :: s1 => Some (Cls false [CDigit], s1)
      | "\"%char :: c :: s1 => Some (lit c, s1)
      | "."%char :: s1 => Some (Cls true [CChar "010"%char], s1)
      | c :: s1 => Some (lit c, s1)
      end
  end.

(** [re.compile]: the whole pattern must be read. *)
Definition parse (p : string) : option re :=
  match p_alt (S (2 * String.length p)) (chars_of p) with
  | Some (r, []) => Some r
  | _ => None
  end.

(** A pattern that does not parse matches nothing; every pattern of the
    tables parses (see [patterns_parse] below). *)
Definition compile (p : string) : re :=
  match parse p with
  | Some r => r
  | None => Cls false []
  end.

Record rmatch : Type := { m_start : nat; m_end : nat; group0 : string }.

Definition slice (s : list ascii) (a b : nat) : string :=
  str_of (firstn (b - a) (skipn a s)).

(** [re.search(pattern, text)] and [re.search(pattern, text, re.IGNORECASE)]. *)
Definition re_search (ic : bool) (pattern text : string) : option rmatch :=
  match search_from ic (compile pattern) (chars_of text) 0 with
  | Some (a, b) => Some {| m_start := a; m_end := b; group0 := slice (chars_of text) a b |}
  | None => None
  end.

(** [re.finditer]: the successive leftmost matches, each search resuming
    where the last match ended (one character further after an empty
    match). *)
Fixpoint finditer_from (fuel : nat) (ic : bool) (r : re) (whole s : list ascii)
         (pos : nat) : list rmatch :=
  match fuel with
  | 0 => []
  | S fuel' =>
      match search_from ic r s pos with
      | None => []
      | Some (a, b) =>
          {| m_start := a; m_end := b; group0 := slice whole a b |} ::
          (let next := if b =? a then S b else b in
           if List.length whole <? next then []
           else finditer_from fuel' ic r whole (skipn (next - pos) s) next)
      end
  end.

Definition re_finditer (ic : bool) (pattern text : string) : list rmatch :=
  let s := chars_of text in
  finditer_from (S (List.length s)) ic (compile pattern) s s 0.

End Regex.
Import Regex.

(** ** Python floats: IEEE 754 binary64 *)

Module Float.

Definition prec : Z := 53.
Definition emax : Z := 1024.

Definition float : Type := spec_float.

Definition fadd : float -> float -> float := SFadd prec emax.
Definition fmul : float -> float -> float := SFmul prec emax.
Definition fdiv : float -> float -> float := SFdiv prec emax.

(** The comparisons [a < b], [a <= b] and [a == b]. *)
Definition flt : float -> float -> bool := SFltb.
Definition fle : float -> float -> bool := SFleb.
Definition feq : float -> float -> bool := SFeqb.

(** An integer as an operand of a division; the quotient is rounded once. *)
Definition of_nat (n : nat) : float :=
  match n with
  | 0 => S754_zero false
  | S _ => S754_finite false (Pos.of_nat n) 0
  end.

(** The decimal literal [n/d], rounded to the nearest float. *)
Definition decimal (n d : nat) : float := fdiv (of_nat n) (of_nat d).

Definition f0_0 : float := S754_zero false.
Definition f0_1 : float := Eval vm_compute in decimal 1 10.
Definition f0_15 : float := Eval vm_compute in decimal 15 100.
Definition f0_6 : float := Eval vm_compute in decimal 6 10.
Definition f0_7 : float := Eval vm_compute in decimal 7 10.
Definition f0_8 : float := Eval vm_compute in decimal 8 10.
Definition f1_0 : float := Eval vm_compute in decimal 1 1.

(** The builtin [min(a, b)]: the first argument is kept unless the second
    one compares smaller. *)
Definition py_min (a b : float) : float := if flt b a then b else a.

End Float.
Import Float.

(** ** Exceptions *)

(** What the recognizer's code does: it returns, or raises an instance of
    [Exception], kept as what [str(e)] prints. *)
Inductive result (A : Type) : Type :=
| Ok (a : A)
| Raise (e : string).

Arguments Ok {A} a.
Arguments Raise {A} e.

Definition bind {A B : Type} (m : result A) (f : A -> result B) : result B :=
  match m with
  | Ok a => f a
  | Raise e => Raise e
  end.

Notation "x <- m ;; f" := (bind m (fun x => f))
  (at level 61, m at next level, right associativity).

(** A [for] loop whose body may raise. *)
Fixpoint for_each {A S : Type} (l : list A) (body : S -> A -> result S) (st : S)
  : result S :=
  match l with
  | [] => Ok st
  | a :: l' => st' <- body st a ;; for_each l' body st'
  end.

(** What [except Exception] tells apart: an instance of [Exception], kept as
    what [str(e)] prints, and any other [BaseException]
    ([asyncio.CancelledError], [KeyboardInterrupt], [SystemExit],
    [GeneratorExit]), kept as the name of its class. *)
Inductive BaseException : Type :=
| Exception (message : string)
| NonException (class_name : string).

(** How a call ends that may raise any exception. *)
Inductive outcome (A : Type) : Type :=
| Returns (a : A)
| Raises (e : BaseException).

Arguments Returns {A} a.
Arguments Raises {A} e.

(** [int / int]: true division, [ZeroDivisionError] on a zero divisor. *)
Definition int_truediv (a b : nat) : result float :=
  match b with
  | 0 => Raise "division by zero"
  | S _ => Ok (fdiv (of_nat a) (of_nat b))
  end.

(** ** intent_recognition.py *)

Open Scope string_scope.

Inductive IntentType : Type :=
| CALENDAR | EMAIL | REMINDER | WEATHER | NEWS | SEARCH | GENERAL_CHAT | UNKNOWN.

Definition IntentType_eqb (a b : IntentType) : bool :=
  match a, b with
  | CALENDAR, CALENDAR | EMAIL, EMAIL | REMINDER, REMINDER | WEATHER, WEATHER
  | NEWS, NEWS | SEARCH, SEARCH | GENERAL_CHAT, GENERAL_CHAT | UNKNOWN, UNKNOWN => true
  | _, _ => false
  end.

(** [IntentType.value] *)
Definition value (t : IntentType) : string :=
  match t with
  | CALENDAR => "calendar"
  | EMAIL => "email"
  | REMINDER => "reminder"
  | WEATHER => "weather"
  | NEWS => "news"
  | SEARCH => "search"
  | GENERAL_CHAT => "general_chat"
  | UNKNOWN => "unknown"
  end.

Record Entity : Type := {
  e_type : string;
  e_value : string;
  e_confidence : float;
  start_pos : nat;
  end_pos : nat
}.

Record Intent : Type := {
  i_type : IntentType;
  i_confidence : float;
  entities : list Entity;
  raw_text : string;
  action : option string
}.

Record pattern_group : Type := {
  patterns : list string;
  actions : list string
}.

(** [IntentRecognizer._load_patterns]: a dict, read in insertion order. *)
Definition _load_patterns : list (IntentType * list pattern_group) :=
  [ (CALENDAR,
     [ {| patterns :=
            [ "(?:schedule|create|add|set up|book)\s+(?:a\s+)?(?:meeting|appointment|event)";
              "(?:what|when)\s+(?:is|are)\s+(?:my|the)\s+(?:next|upcoming)\s+(?:meeting|appointment|event)";
              "(?:cancel|delete|remove)\s+(?:my|the)\s+(?:meeting|appointment|event)";
              "(?:reschedule|move|change)\s+(?:my|the)\s+(?:meeting|appointment|event)";
              "(?:check|show|list)\s+(?:my|the)\s+(?:calendar|schedule|appointments)" ];
          actions := ["create"; "read"; "update"; "delete"; "list"] |} ]);
    (EMAIL,
     [ {| patterns :=
            [ "(?:send|compose|write)\s+(?:an?\s+)?email";
              "(?:check|read|show)\s+(?:my\s+)?(?:email|inbox|messages)";
              "(?:reply|respond)\s+to\s+(?:the\s+)?email";
              "(?:forward|share)\s+(?:this\s+|the\s+)?email";
              "(?:delete|remove)\s+(?:this\s+|the\s+)?email" ];
          actions := ["send"; "read"; "reply"; "forward"; "delete"] |} ]);
    (REMINDER,
     [ {| patterns :=
            [ "(?:remind|alert)\s+me\s+(?:to|about)";
              "(?:set|create|add)\s+(?:a\s+)?(?:reminder|alert|notification)";
              "(?:don't\s+forget|remember)\s+to";
              "(?:what|show)\s+(?:are\s+)?(?:my\s+)?(?:reminders|alerts|tasks)";
              "(?:cancel|delete|remove)\s+(?:the\s+)?(?:reminder|alert)" ];
          actions := ["create"; "read"; "update"; "delete"; "list"] |} ]);
    (WEATHER,
     [ {| patterns :=
            [ "(?:what|how)\s+(?:is|will)\s+(?:the\s+)?weather";
              "(?:weather\s+)?(?:forecast|report|conditions)";
              "(?:is\s+it|will\s+it)\s+(?:rain|snow|sunny|cloudy)";
              "(?:temperature|temp)\s+(?:today|tomorrow|outside)";
              "(?:should\s+i|do\s+i\s+need)\s+(?:bring\s+)?(?:an?\s+)?(?:umbrella|jacket|coat)" ];
          actions := ["current"; "forecast"; "conditions"] |} ]);
    (NEWS,
     [ {| patterns :=
            [ "(?:what|show)\s+(?:is|are)\s+(?:the\s+)?(?:latest\s+)?news";
              "(?:news|headlines|updates)\s+(?:about|on|for)";
              "(?:what|anything)\s+(?:new|happening)\s+(?:in|about|with)";
              "(?:current\s+)?(?:events|affairs|happenings)";
              "(?:breaking|latest)\s+news" ];
          actions := ["headlines"; "search"; "category"] |} ]);
    (SEARCH,
     [ {| patterns :=
            [ "(?:search|look up|find|google)\s+(?:for\s+)?";
              "(?:what|who|where|when|why|how)\s+(?:is|are|was|were|do|does|did)";
              "(?:tell|show)\s+me\s+(?:about|more\s+about)";
              "(?:information|info|details)\s+(?:about|on|for)";
              "(?:can\s+you\s+)?(?:help\s+me\s+)?(?:find|locate)" ];
          actions := ["web_search"; "information"; "lookup"] |} ]) ].

(** [IntentRecognizer._load_entity_extractors] *)
Definition _load_entity_extractors : list (string * list string) :=
  [ ("datetime",
     [ "(?:today|tomorrow|yesterday)";
       "(?:monday|tuesday|wednesday|thursday|friday|saturday|sunday)";
       "(?:january|february|march|april|may|june|july|august|september|october|november|december)";
       "\d{1,2}:\d{2}(?:\s*(?:am|pm))?";
       "\d{1,2}/\d{1,2}(?:/\d{2,4})?";
       "(?:in\s+)?\d+\s+(?:minutes?|hours?|days?|weeks?|months?)";
       "(?:next|this)\s+(?:week|month|year)";
       "(?:at\s+)?\d{1,2}(?::\d{2})?\s*(?:am|pm)" ]);
    ("location",
     [ "(?:in|at|near|around)\s+[A-Z][a-z]+(?:\s+[A-Z][a-z]+)*";
       "[A-Z][a-z]+,\s*[A-Z]{2}";
       "\d+\s+[A-Za-z\s]+(?:Street|St|Avenue|Ave|Road|Rd|Boulevard|Blvd)" ]);
    ("person",
     [ "(?:with|to|from)\s+[A-Z][a-z]+(?:\s+[A-Z][a-z]+)*";
       "[A-Z][a-z]+@[a-z]+\.[a-z]+" ]);
    ("duration",
     [ "\d+\s+(?:minutes?|hours?|days?|weeks?|months?|years?)";
       "(?:for\s+)?\d+\s*(?:min|hr|h|d|w|m|y)";
       "(?:half\s+an?\s+|quarter\s+)?hour" ]);
    ("topic",
     [ "(?:about|regarding|concerning)\s+([^,.!?]+)";
       "(?:subject|topic):\s*([^,.!?]+)" ]) ].

(** [IntentRecognizer._calculate_confidence] *)
Definition _calculate_confidence (m : rmatch) (text pattern : string) : result float :=
  let base_confidence := f0_8 in
  let base_confidence :=
    if String.eqb (group0 m) text then fadd base_confidence f0_15 else base_confidence in
  let match_length := String.length (group0 m) in
  let text_length := String.length text in
  length_ratio <- int_truediv match_length text_length ;;
  let base_confidence := fadd base_confidence (fmul length_ratio f0_1) in
  Ok (py_min base_confidence f1_0).

Definition any_in (words : list string) (text : string) : bool :=
  existsb (fun word => contains word text) words.

(** [IntentRecognizer._extract_action] *)
Definition _extract_action (text : string) (possible_actions : list string)
  : option string :=
  match find (fun a => contains a text) possible_actions with
  | Some a => Some a
  | None =>
      if any_in ["create"; "add"; "set"; "schedule"; "send"; "compose"] text
      then Some "create"
      else if any_in ["show"; "list"; "check"; "read"; "what"; "when"] text
      then Some "read"
      else if any_in ["update"; "change"; "modify"; "edit"; "reschedule"] text
      then Some "update"
      else if any_in ["delete"; "remove"; "cancel"] text
      then Some "delete"
      else hd_error possible_actions
  end.

(** [IntentRecognizer._is_general_chat] *)
Definition _is_general_chat (text : string) : bool :=
  any_in
    [ "hello"; "hi"; "hey"; "good morning"; "good afternoon"; "good evening";
      "how are you"; "what's up"; "thanks"; "thank you"; "please"; "sorry";
      "yes"; "no"; "okay"; "ok"; "sure"; "maybe"; "i think"; "i believe" ]
    text.

(** [IntentRecognizer._extract_entities] *)
Definition _extract_entities (text : string) : list Entity :=
  flat_map
    (fun '(entity_type, pats) =>
       flat_map
         (fun pattern =>
            map (fun m =>
                   {| e_type := entity_type;
                      e_value := strip (group0 m);
                      e_confidence := f0_8;
                      start_pos := m_start m;
                      end_pos := m_end m |})
                (re_finditer true pattern text))
         pats)
    _load_entity_extractors.

(** The three loop variables of [recognize_intent]. *)
Record best : Type := {
  best_intent : IntentType;
  best_confidence : float;
  best_action : option string
}.

Definition best_init : best :=
  {| best_intent := UNKNOWN; best_confidence := f0_0; best_action := None |}.

(** Body of the innermost loop of [recognize_intent]. *)
Definition pattern_step (text_lower : string) (intent_type : IntentType)
           (group : pattern_group) (st : best) (pattern : string) : result best :=
  match re_search false pattern text_lower with
  | None => Ok st
  | Some m =>
      confidence <- _calculate_confidence m text_lower pattern ;;
      if flt (best_confidence st) confidence
      then Ok {| best_intent := intent_type;
                 best_confidence := confidence;
                 best_action := _extract_action text_lower (actions group) |}
      else Ok st
  end.

Definition classify (text_lower : string) : result best :=
  for_each _load_patterns
    (fun st '(intent_type, pattern_groups) =>
       for_each pattern_groups
         (fun st group =>
            for_each (patterns group) (pattern_step text_lower intent_type group) st)
         st)
    best_init.

(** [IntentRecognizer.recognize_intent] *)
Definition recognize_intent (text : string) : result Intent :=
  let text_lower := strip (lower text) in
  b <- classify text_lower ;;
  let b :=
    if IntentType_eqb (best_intent b) UNKNOWN
    then if _is_general_chat text_lower
         then {| best_intent := GENERAL_CHAT;
                 best_confidence := f0_7;
                 best_action := best_action b |}
         else b
    else b in
  let entities := _extract_entities text in
  Ok {| i_type := best_intent b;
        i_confidence := best_confidence b;
        entities := entities;
        raw_text := text;
        action := best_action b |}.

Fixpoint lookup {A B : Type} (eqb : A -> A -> bool) (k : A) (d : list (A * B))
  : option B :=
  match d with
  | [] => None
  | (k', v) :: d' => if eqb k k' then Some v else lookup eqb k d'
  end.

(** [dict.get(key, default)] *)
Definition dict_get {A B : Type} (eqb : A -> A -> bool) (d : list (A * B)) (k : A)
           (default : B) : B :=
  match lookup eqb k d with
  | Some v => v
  | None => default
  end.

(** An action is a string or [None]; the keys of the tables are strings. *)
Definition action_eqb (a : option string) (key : option string) : bool :=
  match a, key with
  | Some x, Some y => String.eqb x y
  | None, None => true
  | _, _ => false
  end.

Definition requirements : list (IntentType * list (option string * list string)) :=
  [ (CALENDAR, [ (Some "create", ["datetime"]); (Some "read", []);
                 (Some "update", ["datetime"]); (Some "delete", ["datetime"]);
                 (Some "list", []) ]);
    (EMAIL, [ (Some "send", ["person"; "topic"]); (Some "read", []);
              (Some "reply", ["topic"]); (Some "forward", ["person"]);
              (Some "delete", []) ]);
    (REMINDER, [ (Some "create", ["datetime"; "topic"]); (Some "read", []);
                 (Some "update", ["datetime"; "topic"]); (Some "delete", ["topic"]);
                 (Some "list", []) ]);
    (WEATHER, [ (Some "current", []); (Some "forecast", ["datetime"]);
                (Some "conditions", ["location"]) ]);
    (NEWS, [ (Some "headlines", []); (Some "search", ["topic"]);
             (Some "category", ["topic"]) ]);
    (SEARCH, [ (Some "web_search", ["topic"]); (Some "information", ["topic"]);
               (Some "lookup", ["topic"]) ]) ].

(** [IntentRecognizer.get_required_entities] *)
Definition get_required_entities (intent_type : IntentType) (action : option string)
  : list string :=
  dict_get action_eqb (dict_get IntentType_eqb requirements intent_type []) action [].

(** ** assistant_service.py *)

Section AssistantService.

(** The request context and the payload of a handler response are
    dictionaries the coordinator only passes along. *)
Variables Context Data : Type.

Record AssistantRequest : Type := {
  text : string;
  user_id : string;
  context : Context
}.

Record AssistantResponse : Type := {
  success : bool;
  message : string;
  intent_type : string;
  confidence : float;
  data : option Data;
  error : option string;
  requires_followup : bool;
  followup_question : option string;
  is_assistant_task : bool
}.

(** What [BaseHandler.execute] returns. *)
Record HandlerResponse : Type := {
  h_success : bool;
  h_message : string;
  h_data : option Data;
  h_error : option string;
  h_requires_followup : bool;
  h_followup_question : option string
}.

(** A capability handler: awaiting [execute(intent, entities, context)]
    gives a response or raises, inside or outside the class [Exception]. *)
Definition Handler : Type := Intent -> list Entity -> Context -> outcome HandlerResponse.

(** [self.handlers]: a dict from intent type to handler. *)
Definition Registry : Type := list (IntentType * Handler).

Definition confidence_threshold : float := f0_6.

(** [AssistantService._check_missing_entities] *)
Definition _check_missing_entities (entities : list Entity) (required_entities : list string)
  : list string :=
  let entity_types := map e_type entities in
  filter (fun req => negb (existsb (String.eqb req) entity_types)) required_entities.

Definition questions : list (IntentType * list (string * string)) :=
  [ (WEATHER,
     [ ("location", "Which city or location would you like the weather for?");
       ("datetime", "For what date would you like the weather forecast?") ]);
    (REMINDER,
     [ ("topic", "What would you like me to remind you about?");
       ("datetime", "When would you like to be reminded? (e.g., 'tomorrow at 3pm', 'in 2 hours')") ]);
    (SEARCH,
     [ ("topic", "What would you like me to search for?") ]);
    (CALENDAR,
     [ ("datetime", "When would you like to schedule this? (e.g., 'tomorrow at 2pm', 'next Monday')");
       ("topic", "What is this meeting or event about?") ]);
    (EMAIL,
     [ ("person", "Who would you like to send this email to?");
       ("topic", "What is the subject or content of the email?") ]) ].

(** [', '.join(parts)] *)
Fixpoint join (sep : string) (parts : list string) : string :=
  match parts with
  | [] => EmptyString
  | [p] => p
  | p :: rest => p ++ sep ++ join sep rest
  end.

(** [AssistantService._generate_followup_question] *)
Definition _generate_followup_question (intent_type : IntentType) (action : option string)
           (missing_entities : list string) : string :=
  let intent_questions := dict_get IntentType_eqb questions intent_type [] in
  match missing_entities with
  | [entity] =>
      dict_get String.eqb intent_questions entity
        ("I need more information about the " ++ entity ++ ".")
  | _ =>
      let entity_questions :=
        map (fun entity => dict_get String.eqb intent_questions entity entity)
            missing_entities in
      "I need to know: " ++ join ", " entity_questions
  end.

Variable handlers : Registry.

(** The [try] block of [AssistantService.process_request]. *)
Definition process_request_try (request : AssistantRequest) : outcome AssistantResponse :=
  match recognize_intent (text request) with
  | Raise e => Raises (Exception e)
  | Ok intent =>
      let is_task :=
        negb (IntentType_eqb (i_type intent) UNKNOWN)
        && negb (IntentType_eqb (i_type intent) GENERAL_CHAT)
        && fle confidence_threshold (i_confidence intent) in
      if negb is_task then
        Returns
          {| success := true;
             message := "This doesn't appear to be a personal assistant task. I'll handle it as a general conversation.";
             intent_type := value (i_type intent);
             confidence := i_confidence intent;
             data := None;
             error := None;
             requires_followup := false;
             followup_question := None;
             is_assistant_task := false |}
      else
        match lookup IntentType_eqb (i_type intent) handlers with
        | None =>
            Returns
              {| success := false;
                 message := "I understand you want help with " ++ value (i_type intent)
                            ++ ", but that feature isn't available yet.";
                 intent_type := value (i_type intent);
                 confidence := i_confidence intent;
                 data := None;
                 error := Some ("No handler available for " ++ value (i_type intent));
                 requires_followup := false;
                 followup_question := None;
                 is_assistant_task := true |}
        | Some handler =>
            let required_entities :=
              get_required_entities (i_type intent) (action intent) in
            let missing_entities :=
              _check_missing_entities (entities intent) required_entities in
            match missing_entities with
            | _ :: _ =>
                let question :=
                  _generate_followup_question (i_type intent) (action intent)
                    missing_entities in
                Returns
                  {| success := true;
                     message := "I need a bit more information to help you with that.";
                     intent_type := value (i_type intent);
                     confidence := i_confidence intent;
                     data := None;
                     error := None;
                     requires_followup := true;
                     followup_question := Some question;
                     is_assistant_task := true |}
            | [] =>
                match handler intent (entities intent) (context request) with
                | Raises e => Raises e
                | Returns handler_response =>
                    Returns
                      {| success := h_success handler_response;
                         message := h_message handler_response;
                         intent_type := value (i_type intent);
                         confidence := i_confidence intent;
                         data := h_data handler_response;
                         error := h_error handler_response;
                         requires_followup := h_requires_followup handler_response;
                         followup_question := h_followup_question handler_response;
                         is_assistant_task := true |}
                end
            end
        end
  end.

(** The response built in the [except Exception as e] clause. *)
Definition error_response (e : string) : AssistantResponse :=
  {| success := false;
     message := "I encountered an error while processing your request. Please try again.";
     intent_type := "error";
     confidence := f0_0;
     data := None;
     error := Some e;
     requires_followup := false;
     followup_question := None;
     is_assistant_task := true |}.

(** [AssistantService.process_request]: [except Exception] catches the
    instances of [Exception]; any other exception leaves the coroutine. *)
Definition process_request (request : AssistantRequest) : outcome AssistantResponse :=
  match process_request_try request with
  | Returns response => Returns response
  | Raises (Exception e) => Returns (error_response e)
  | Raises e => Raises e
  end.

End AssistantService.

Arguments error_response {Data} e.

(** The registry of [AssistantService.__init__]: three handlers, defined
    outside this part of the repository. *)
Definition reference_registry {Context Data : Type}
           (weather_handler reminder_handler search_handler : Handler Context Data)
  : Registry Context Data :=
  [ (WEATHER, weather_handler); (REMINDER, reminder_handler); (SEARCH, search_handler) ].

(** One entry of the dictionary of capabilities. *)
Record Capability : Type := {
  c_description : string;
  c_actions : list string;
  c_examples : list string
}.

Record Capabilities : Type := {
  available_capabilities : list (string * Capability);
  c_confidence_threshold : float;
  supported_intents : list string
}.

(** The members of [IntentType], in the order an iteration gives them. *)
Definition intent_types : list IntentType :=
  [CALENDAR; EMAIL; REMINDER; WEATHER; NEWS; SEARCH; GENERAL_CHAT; UNKNOWN].

(** [AssistantService.get_capabilities] *)
Definition get_capabilities : Capabilities :=
  let capabilities :=
    [ ("weather",
       {| c_description := "Get current weather and forecasts";
          c_actions := ["current"; "forecast"; "conditions"];
          c_examples := [ "What's the weather like?";
                          "Will it rain tomorrow?";
                          "Weather forecast for New York" ] |});
      ("reminders",
       {| c_description := "Create and manage reminders";
          c_actions := ["create"; "list"; "update"; "delete"];
          c_examples := [ "Remind me to call mom at 3pm";
                          "Set a reminder for my meeting tomorrow";
                          "What are my reminders?" ] |});
      ("search",
       {| c_description := "Search the web for information";
          c_actions := ["web_search"; "information"; "lookup"];
          c_examples := [ "Search for the latest news about AI";
                          "What is the capital of France?";
                          "Find information about climate change" ] |}) ] in
  {| available_capabilities := capabilities;
     c_confidence_threshold := confidence_threshold;
     supported_intents :=
       map value (filter (fun intent => negb (IntentType_eqb intent UNKNOWN)) intent_types) |}.

(** ** assistant_api.py *)

(** What an endpoint gives back: a body, or an [HTTPException]. *)
Inductive http (A : Type) : Type :=
| Http200 (body : A)
| HTTPException (status_code : nat) (detail : string).

Arguments Http200 {A} body.
Arguments HTTPException {A} status_code detail.

(** The dictionary [test_intent_recognition] returns. *)
Record IntentTestResponse : Type := {
  t_text : string;
  t_intent_type : string;
  t_confidence : float;
  t_action : option string;
  t_entities : list Entity;
  t_required_entities : list string
}.

(** [action or ""] on an optional string. *)
Definition or_empty (a : option string) : string :=
  match a with
  | Some s => s
  | None => EmptyString
  end.

(** The endpoint [test_intent_recognition]. *)
Definition test_intent_recognition (request_text : string) : http IntentTestResponse :=
  match
    (intent <- recognize_intent request_text ;;
     Ok {| t_text := request_text;
           t_intent_type := value (i_type intent);
           t_confidence := i_confidence intent;
           t_action := action intent;
           t_entities := entities intent;
           t_required_entities :=
             get_required_entities (i_type intent) (Some (or_empty (action intent))) |})
  with
  | Ok body => Http200 body
  | Raise e => HTTPException 500 e
  end.

(** ** Properties used by the statements *)

(** A float that is at least [mc * 2^-53], for a mantissa [mc] of 53 bits:
    plus infinity, or a positive number with a larger exponent, or with the
    exponent -53 and a mantissa not below [mc]. *)
Definition at_least (mc : positive) (x : float) : Prop :=
  match x with
  | S754_infinity false => True
  | S754_finite false m e => (-53 < e)%Z \/ (e = (-53)%Z /\ (mc <= m)%positive)
  | _ => False
  end.

(** Zero, a positive number or plus infinity. *)
Definition nonneg (x : float) : Prop :=
  match x with
  | S754_zero _ | S754_infinity false | S754_finite false _ _ => True
  | _ => False
  end.

(** The mantissa of [0.8], whose exponent is -53. *)
Definition m0_8 : positive := 7205759403792794.

(** The mantissa of [0.8 + 0.15], whose exponent is -53 too. *)
Definition m0_95 : positive := 8556839292003943.

(** Texts made of whitespace only (the empty text is one). *)
Definition all_space (s : list ascii) : bool := forallb isspace s.

Definition blank (text : string) : bool := all_space (chars_of text).

(** A literal or set that accepts no whitespace character, decided over
    the 256 characters. *)
Definition inked_set (ic neg : bool) (items : list citem) : bool :=
  forallb (fun c => negb (isspace c && cls_match ic neg items c)) all_chars.

(** A sufficient test for: every text the pattern matches holds a character
    that is not whitespace. *)
Fixpoint needs_ink (ic : bool) (r : re) : bool :=
  match r with
  | Eps => false
  | Cls neg items => inked_set ic neg items
  | Seq r1 r2 => needs_ink ic r1 || needs_ink ic r2
  | Alt r1 r2 => needs_ink ic r1 && needs_ink ic r2
  | Rep lo _ r1 => Nat.ltb 0 lo && needs_ink ic r1
  end.

(** Whether the pattern may match the empty text; [false] only for a pattern
    that cannot. *)
Fixpoint nullable (r : re) : bool :=
  match r with
  | Eps => true
  | Cls _ _ => false
  | Seq r1 r2 => nullable r1 && nullable r2
  | Alt r1 r2 => nullable r1 || nullable r2
  | Rep lo _ r1 => Nat.eqb lo 0 || nullable r1
  end.

(** Every repeated part of the pattern consumes a character each time. *)
Fixpoint repeats_consume (r : re) : bool :=
  match r with
  | Eps | Cls _ _ => true
  | Seq r1 r2 | Alt r1 r2 => repeats_consume r1 && repeats_consume r2
  | Rep _ _ r1 => negb (nullable r1) && repeats_consume r1
  end.

(** The patterns of the catalog in the order the three nested loops of
    [recognize_intent] visit them. *)
Definition catalog : list (IntentType * pattern_group * string) :=
  flat_map
    (fun '(intent_type, pattern_groups) =>
       flat_map (fun group => map (fun p => (intent_type, group, p)) (patterns group))
                pattern_groups)
    _load_patterns.

(** A candidate: what one matching pattern proposes. *)
Definition candidate_of (text_lower : string)
           (entry : IntentType * pattern_group * string) : list best :=
  let '(intent_type, group, pattern) := entry in
  match re_search false pattern text_lower with
  | None => []
  | Some m =>
      match _calculate_confidence m text_lower pattern with
      | Ok confidence =>
          [ {| best_intent := intent_type;
               best_confidence := confidence;
               best_action := _extract_action text_lower (actions group) |} ]
      | Raise _ => []
      end
  end.

(** All candidates of a text, in examination order. *)
Definition candidates (text_lower : string) : list best :=
  flat_map (candidate_of text_lower) catalog.

(** The test of the loop: the candidate replaces the running best only if
    its confidence is strictly greater. *)
Definition pick (st c : best) : best :=
  if flt (best_confidence st) (best_confidence c) then c else st.

(** [b] is the earliest of the candidates with the greatest confidence:
    every earlier one is strictly below it, no later one is above it. *)
Definition earliest_greatest (b : best) (cands : list best) : Prop :=
  exists before after,
    cands = (before ++ b :: after)%list
    /\ Forall (fun c => flt (best_confidence c) (best_confidence b) = true) before
    /\ Forall (fun c => flt (best_confidence b) (best_confidence c) = false) after.

(** The score as the specification words it. *)
Definition spec_confidence (matched text : string) : float :=
  let bonus := if String.eqb matched text then f0_15 else f0_0 in
  let ratio := fdiv (of_nat (String.length matched)) (of_nat (String.length text)) in
  py_min (fadd (fadd f0_8 bonus) (fmul f0_1 ratio)) f1_0.

(** [l1] is [l2] with some elements left out, the order kept. *)
Inductive subseq {A : Type} : list A -> list A -> Prop :=
| subseq_nil : subseq [] []
| subseq_skip : forall x l1 l2, subseq l1 l2 -> subseq l1 (x :: l2)
| subseq_keep : forall x l1 l2, subseq l1 l2 -> subseq (x :: l1) (x :: l2).

(** The question template of an intent type and an entity kind. *)
Definition template (intent_type : IntentType) (kind : string) : option string :=
  match lookup IntentType_eqb intent_type questions with
  | Some qs => lookup String.eqb kind qs
  | None => None
  end.

(** The phrase that asks for one kind in a combined prompt: its template,
    or the name of the kind where there is none. *)
Definition phrase (intent_type : IntentType) (kind : string) : string :=
  match template intent_type kind with
  | Some q => q
  | None => kind
  end.

(** The intent types that have patterns. *)
Definition catalog_type (t : IntentType) : bool :=
  match t with
  | UNKNOWN | GENERAL_CHAT => false
  | _ => true
  end.

(** The gate of step 2. *)
Definition is_task (intent : Intent) : bool :=
  negb (IntentType_eqb (i_type intent) UNKNOWN)
  && negb (IntentType_eqb (i_type intent) GENERAL_CHAT)
  && fle confidence_threshold (i_confidence intent).

Section Responses.

Variables Context Data : Type.

(** The response of step 2 for a text that is not an assistant task. *)
Definition general_conversation (intent : Intent) : AssistantResponse Data :=
  {| success := true;
     message := "This doesn't appear to be a personal assistant task. I'll handle it as a general conversation.";
     intent_type := value (i_type intent);
     confidence := i_confidence intent;
     data := None;
     error := None;
     requires_followup := false;
     followup_question := None;
     is_assistant_task := false |}.

(** The response of step 3 when no handler is registered. *)
Definition no_handler (intent : Intent) : AssistantResponse Data :=
  {| success := false;
     message := "I understand you want help with " ++ value (i_type intent)
                ++ ", but that feature isn't available yet.";
     intent_type := value (i_type intent);
     confidence := i_confidence intent;
     data := None;
     error := Some ("No handler available for " ++ value (i_type intent));
     requires_followup := false;
     followup_question := None;
     is_assistant_task := true |}.

(** The response of step 4 with its question. *)
Definition followup (intent : Intent) (question : string) : AssistantResponse Data :=
  {| success := true;
     message := "I need a bit more information to help you with that.";
     intent_type := value (i_type intent);
     confidence := i_confidence intent;
     data := None;
     error := None;
     requires_followup := true;
     followup_question := Some question;
     is_assistant_task := true |}.

(** The response of step 5: the handler's fields, overlaid. *)
Definition forwarded (intent : Intent) (r : HandlerResponse Data) : AssistantResponse Data :=
  {| success := h_success r;
     message := h_message r;
     intent_type := value (i_type intent);
     confidence := i_confidence intent;
     data := h_data r;
     error := h_error r;
     requires_followup := h_requires_followup r;
     followup_question := h_followup_question r;
     is_assistant_task := true |}.

End Responses.

(** The steps of [process_request] after the classification, with the
    responses named as above. *)
Definition dispatch {Context Data : Type} (handlers : Registry Context Data)
           (request : AssistantRequest Context) (intent : Intent)
  : outcome (AssistantResponse Data) :=
  if negb (is_task intent) then Returns (general_conversation Data intent)
  else
    match lookup IntentType_eqb (i_type intent) handlers with
    | None => Returns (no_handler Data intent)
    | Some handler =>
        let missing :=
          _check_missing_entities (entities intent)
            (get_required_entities (i_type intent) (action intent)) in
        match missing with
        | _ :: _ =>
            Returns (followup Data intent
                       (_generate_followup_question (i_type intent) (action intent) missing))
        | [] =>
            match handler intent (entities intent) (context request) with
            | Returns r => Returns (forwarded intent r)
            | Raises e => Raises e
            end
        end
    end.

(** Sample collaborators and inputs for the instances below. *)
Definition sunny : HandlerResponse unit :=
  {| h_success := true;
     h_message := "Sunny";
     h_data := None;
     h_error := None;
     h_requires_followup := false;
     h_followup_question := None |}.

Definition sample_handler : Handler unit unit := fun _ _ _ => Returns sunny.

Definition raising_handler : Handler unit unit := fun _ _ _ => Raises (Exception "boom").

(** A handler that is cancelled while it is awaited. *)
Definition cancelled_handler : Handler unit unit :=
  fun _ _ _ => Raises (NonException "CancelledError").

Definition sample_registry : Registry unit unit :=
  reference_registry sample_handler raising_handler raising_handler.

Definition sample_request (t : string) : AssistantRequest unit :=
  {| text := t; user_id := "u1"; context := tt |}.

Definition unknown_intent (t : string) : Intent :=
  {| i_type := UNKNOWN; i_confidence := f0_0; entities := []; raw_text := t;
     action := None |}.

Definition intent_of (t : string) : Intent :=
  match recognize_intent t with
  | Ok i => i
  | Raise _ => unknown_intent t
  end.

(** What the recognizer returns on two sample texts. *)
Definition forecast_intent : Intent :=
  Eval vm_compute in intent_of "current weather forecast".

Definition meeting_intent : Intent :=
  Eval vm_compute in intent_of "schedule a meeting".

Definition sample_match : rmatch :=
  {| m_start := 0; m_end := 12; group0 := "remind me to" |}.

(** Powers of two are opaque to [lia]: name them before it runs. *)
Ltac pow_atoms :=
  repeat match goal with
         | |- context [2 ^ ?e] =>
             let a := fresh "a" in set (a := 2 ^ e) in *; clearbody a
         | H : context [2 ^ ?e] |- _ =>
             let a := fresh "a" in set (a := 2 ^ e) in *; clearbody a
         end.

(** ** Properties of the code beyond the statements *)

(** The matches lie in [lo, hi], each is not empty and starts where the one
    before it ended or later. *)
Fixpoint spans_ordered (lo hi : nat) (l : list rmatch) : Prop :=
  match l with
  | [] => True
  | m :: l' =>
      lo <= m_start m /\ m_start m < m_end m /\ m_end m <= hi
      /\ spans_ordered (m_end m) hi l'
  end.

(** The entity of one match, as [_extract_entities] builds it. *)
Definition entity_of (entity_type : string) (m : rmatch) : Entity :=
  {| e_type := entity_type;
     e_value := strip (group0 m);
     e_confidence := f0_8;
     start_pos := m_start m;
     end_pos := m_end m |}.

(** The entity kinds of the extractor table. *)
Definition kinds : list string := map fst _load_entity_extractors.

(** What the classification decides about a text. *)
Definition verdict (i : Intent) : IntentType * float * option string :=
  (i_type i, i_confidence i, action i).

(** The length of what a match leaves over. *)
Definition len (o : option (list ascii)) : option nat := option_map (@List.length ascii) o.

(** Two matches with the same offsets and the same text up to case. *)
Definition same_match (m1 m2 : rmatch) : Prop :=
  m_start m1 = m_start m2 /\ m_end m1 = m_end m2 /\ lower (group0 m1) = lower (group0 m2).

(** Character by character, the same once lower-cased. *)
Fixpoint same_case (s1 s2 : list ascii) : bool :=
  match s1, s2 with
  | [], [] => true
  | c1 :: s1', c2 :: s2' => Ascii.eqb (lower_char c1) (lower_char c2) && same_case s1' s2'
  | _, _ => false
  end.

(** The second text is the first with the case of some characters changed:
    the same length and, position by position, the same character up to
    case. *)
Definition case_variant (t1 t2 : string) : bool := same_case (chars_of t1) (chars_of t2).

(** Two entities of the same kind at the same offsets, whose values differ
    in case only. *)
Definition same_entity (e1 e2 : Entity) : Prop :=
  e_type e1 = e_type e2
  /\ start_pos e1 = start_pos e2
  /\ end_pos e1 = end_pos e2
  /\ case_variant (e_value e1) (e_value e2) = true.

(** Kind, offsets and lower-cased value of an entity. *)
Definition span (e : Entity) : string * nat * nat * string :=
  (e_type e, start_pos e, end_pos e, lower (e_value e)).

(** Some pattern of the catalog matches the normalized text. *)
Definition matches_any (text_lower : string) : bool :=
  existsb (fun '(_, _, p) =>
             match re_search false p text_lower with Some _ => true | None => false end)
          catalog.

(** The actions of the keyword fallback of [_extract_action]. *)
Definition keyword_actions : list string := ["create"; "read"; "update"; "delete"].

(** The type has a handler in the registry. *)
Definition registered {Context Data : Type} (handlers : Registry Context Data)
           (t : IntentType) : bool :=
  match lookup IntentType_eqb t handlers with Some _ => true | None => false end.

(** The required kinds the entities of an intent leave open. *)
Definition missing_of (i : Intent) : list string :=
  _check_missing_entities (entities i) (get_required_entities (i_type i) (action i)).

(** Case analysis on the keys of a requirement table. *)
Ltac split_keys :=
  repeat match goal with
         | |- context [String.eqb ?x ?y] => destruct (String.eqb x y)
         end.

Definition reminder_intent : Intent :=
  Eval vm_compute in intent_of "Remind me to call mom".

(** A float that is at most [M * 2^E]: a zero, or a positive number with
    a mantissa of at most 53 bits and a smaller exponent, or the exponent [E]
    and a mantissa not above [M]. *)
Definition at_most (E : Z) (M : positive) (x : float) : Prop :=
  match x with
  | S754_zero _ => True
  | S754_finite false m e =>
      (Zpos m < 2 ^ 53)%Z /\ ((e < E)%Z \/ (e = E /\ (m <= M)%positive))
  | _ => False
  end.

(** Some pattern of the catalog matches the normalized text as a whole. *)
Definition whole_match (text_lower : string) : bool :=
  existsb (fun '(_, _, p) =>
             match re_search false p text_lower with
             | Some m => String.eqb (group0 m) text_lower
             | None => false
             end)
          catalog.

(** * Lemmas *)

(** ** The tables and the matcher on sample inputs *)

(** Every pattern of the two tables is read in full. *)
Lemma patterns_parse :
  forallb (fun p => match parse p with Some _ => true | None => false end)
          (map snd catalog ++ flat_map snd _load_entity_extractors)%list
  = true.
Proof. vm_compute. reflexivity. Qed.

(** No repeated part of a pattern can match the empty text, so the bound of
    [mtch] on the number of repetitions is never the reason a match stops. *)
Lemma tables_repeats_consume :
  forallb (fun p => repeats_consume (compile p))
          (map snd catalog ++ flat_map snd _load_entity_extractors)%list
  = true.
Proof. vm_compute. reflexivity. Qed.

(** No extractor pattern matches the empty text: [re_finditer] never has to
    step over an empty match. *)
Lemma extractors_not_nullable :
  forallb (fun p => negb (nullable (compile p)))
          (flat_map snd _load_entity_extractors)
  = true.
Proof. vm_compute. reflexivity. Qed.

Example parse_optional_letter :
  parse "an?\s+"
  = Some (Seq (lit "a") (Seq (Rep 0 (Some 1) (lit "n")) (Rep 1 None (Cls false [CSpace])))).
Proof. reflexivity. Qed.

Example parse_counted_set :
  parse "[A-Z]{2}" = Some (Rep 2 (Some 2) (Cls false [CRange "A" "Z"])).
Proof. reflexivity. Qed.

Example search_remind :
  re_search false "(?:remind|alert)\s+me\s+(?:to|about)" "remind me to call mom"
  = Some sample_match.
Proof. vm_compute. reflexivity. Qed.

(** A greedy repeat gives characters back until the rest matches. *)
Example search_backtracks :
  re_search true "\d+\s+[A-Za-z\s]+(?:Street|St)" "at 123 main street"
  = Some {| m_start := 3; m_end := 18; group0 := "123 main street" |}.
Proof. vm_compute. reflexivity. Qed.

Example finditer_person :
  map (fun m => (m_start m, m_end m, group0 m))
      (re_finditer true "(?:with|to|from)\s+[A-Z][a-z]+(?:\s+[A-Z][a-z]+)*"
                   "Remind me to call mom")
  = [(10, 21, "to call mom")].
Proof. vm_compute. reflexivity. Qed.

Example finditer_successive :
  map (fun m => (m_start m, m_end m))
      (re_finditer true "(?:today|tomorrow|yesterday)" "Today or tomorrow")
  = [(0, 5); (9, 17)].
Proof. vm_compute. reflexivity. Qed.

Example strip_lower_sample : strip (lower "  Check MY Calendar ") = "check my calendar".
Proof. reflexivity. Qed.

(** The literals are the floats nearest to the decimals. *)
Example literal_0_8 : f0_8 = S754_finite false m0_8 (-53).
Proof. reflexivity. Qed.

Example literal_0_6 : f0_6 = S754_finite false 5404319552844595 (-53).
Proof. reflexivity. Qed.

Example literal_1_0 : f1_0 = S754_finite false 4503599627370496 (-52).
Proof. reflexivity. Qed.

(** [0.8 + (12 / 21) * 0.1] is the float [0.8571428571428572]. *)
Example confidence_remind :
  _calculate_confidence sample_match "remind me to call mom"
    "(?:remind|alert)\s+me\s+(?:to|about)"
  = Ok (S754_finite false 7720456504063708 (-53)).
Proof. vm_compute. reflexivity. Qed.

(** A greeting matches no pattern and holds a chat indicator; read without
    regard to case, its start looks like a place name followed by a state. *)
Example recognize_greeting :
  recognize_intent "hello, thanks!"
  = Ok {| i_type := GENERAL_CHAT;
          i_confidence := f0_7;
          entities := [ {| e_type := "location"; e_value := "hello, th";
                           e_confidence := f0_8; start_pos := 0; end_pos := 9 |} ];
          raw_text := "hello, thanks!";
          action := None |}.
Proof. vm_compute. reflexivity. Qed.

(** A handler that raises: the coordinator answers with the error response. *)
Example process_request_contains_failure :
  process_request (reference_registry raising_handler raising_handler raising_handler)
                  (sample_request "current weather forecast")
  = Returns (error_response "boom").
Proof. vm_compute. reflexivity. Qed.

(** ** Rounding: bounds on sums, products and quotients *)

Module FloatFacts.
Local Open Scope Z_scope.

Lemma digits2_pos_bounds (p : positive) :
  2 ^ (Zpos (digits2_pos p) - 1) <= Zpos p < 2 ^ Zpos (digits2_pos p).
Proof.
  induction p as [p IH | p IH | ]; cbn [digits2_pos].
  - rewrite Pos2Z.inj_succ, (Pos2Z.inj_xI p).
    replace (Z.succ (Zpos (digits2_pos p)) - 1) with (Z.succ (Zpos (digits2_pos p) - 1)) by lia.
    rewrite !Z.pow_succ_r by lia. pow_atoms. lia.
  - rewrite Pos2Z.inj_succ, (Pos2Z.inj_xO p).
    replace (Z.succ (Zpos (digits2_pos p)) - 1) with (Z.succ (Zpos (digits2_pos p) - 1)) by lia.
    rewrite !Z.pow_succ_r by lia. pow_atoms. lia.
  - cbn. lia.
Qed.

Lemma Zdigits2_bounds (m : Z) :
  0 < m -> 2 ^ (Zdigits2 m - 1) <= m < 2 ^ Zdigits2 m.
Proof.
  destruct m as [|p|p]; try lia. intros _. apply digits2_pos_bounds.
Qed.

Lemma shr_1_m (r : shr_record) :
  0 <= shr_m r -> shr_m (shr_1 r) = shr_m r / 2.
Proof.
  destruct r as [m rb sb]. cbn [shr_m]. intros H.
  rewrite <- Z.div2_div.
  destruct m as [|[p|p|]|p]; try reflexivity. lia.
Qed.

Lemma iter_shr_m (p : positive) :
  forall r, 0 <= shr_m r ->
            shr_m (iter_pos shr_1 p r) = shr_m r / 2 ^ Zpos p.
Proof.
  induction p as [p IH | p IH | ]; intros r Hr; cbn [iter_pos].
  - assert (H1 : 0 <= shr_m (shr_1 r)) by (rewrite shr_1_m by lia; apply Z.div_pos; lia).
    assert (H2 : 0 <= shr_m (iter_pos shr_1 p (shr_1 r)))
      by (rewrite IH by lia; apply Z.div_pos; [lia | apply Z.pow_pos_nonneg; lia]).
    rewrite IH, IH, shr_1_m by lia.
    assert (0 < 2 ^ Zpos p) by (apply Z.pow_pos_nonneg; lia).
    rewrite !Z.div_div by lia.
    replace (Zpos p~1) with (1 + Zpos p + Zpos p) by lia.
    rewrite !Z.pow_add_r by lia. rewrite Z.pow_1_r. f_equal. ring.
  - assert (H2 : 0 <= shr_m (iter_pos shr_1 p r))
      by (rewrite IH by lia; apply Z.div_pos; [lia | apply Z.pow_pos_nonneg; lia]).
    rewrite IH, IH by lia.
    assert (0 < 2 ^ Zpos p) by (apply Z.pow_pos_nonneg; lia).
    rewrite !Z.div_div by lia.
    replace (Zpos p~0) with (Zpos p + Zpos p) by lia.
    rewrite !Z.pow_add_r by lia. f_equal.
  - rewrite shr_1_m by lia. reflexivity.
Qed.

(** Shifting right by [n] places divides the mantissa by [2^n]. *)
Lemma shr_spec (r : shr_record) (e n : Z) :
  0 <= shr_m r ->
  exists r', shr r e n = (r', e + Z.max n 0)
             /\ shr_m r' = shr_m r / 2 ^ Z.max n 0.
Proof.
  intros Hr. destruct n as [|p|p]; cbn [shr].
  - exists r. rewrite Z.add_0_r. split; [reflexivity|]. cbn. now rewrite Z.div_1_r.
  - exists (iter_pos shr_1 p r). rewrite Z.max_l by lia. split; [reflexivity|].
    now apply iter_shr_m.
  - exists r. rewrite Z.max_r by lia. rewrite Z.add_0_r. split; [reflexivity|].
    cbn. now rewrite Z.div_1_r.
Qed.

Lemma shr_m_of_loc (m : Z) (l : location) : shr_m (shr_record_of_loc m l) = m.
Proof. destruct l as [|[]]; reflexivity. Qed.

Lemma rne_bounds (m : Z) (l : location) :
  m <= round_nearest_even m l <= m + 1.
Proof.
  destruct l as [|[]]; cbn; try lia. destruct (Z.even m); lia.
Qed.


Lemma binary_round_aux_nonneg (mx ex : Z) (lx : location) :
  0 <= mx -> nonneg (binary_round_aux prec emax false mx ex lx).
Proof.
  intros Hm. unfold binary_round_aux, shr_fexp.
  destruct (shr_spec (shr_record_of_loc mx lx) ex
              (fexp prec emax (Zdigits2 mx + ex) - ex)) as (r1 & E1 & M1).
  { now rewrite shr_m_of_loc. }
  rewrite E1. rewrite shr_m_of_loc in M1.
  set (m2 := round_nearest_even (shr_m r1) (loc_of_shr_record r1)).
  assert (H2 : 0 <= m2).
  { pose proof (rne_bounds (shr_m r1) (loc_of_shr_record r1)).
    assert (0 <= shr_m r1)
      by (rewrite M1; apply Z.div_pos; [lia | apply Z.pow_pos_nonneg; lia]).
    unfold m2. lia. }
  set (e1 := ex + Z.max (fexp prec emax (Zdigits2 mx + ex) - ex) 0).
  destruct (shr_spec (shr_record_of_loc m2 loc_Exact) e1
              (fexp prec emax (Zdigits2 m2 + e1) - e1)) as (r2 & E2 & M2).
  { cbn. exact H2. }
  rewrite E2. cbn [shr_m shr_record_of_loc] in M2.
  assert (H3 : 0 <= shr_m r2)
    by (rewrite M2; apply Z.div_pos; [lia | apply Z.pow_pos_nonneg; lia]).
  destruct (shr_m r2) as [|q|q]; [exact I | | lia].
  destruct (Z.leb _ _); exact I.
Qed.

Lemma shl_align_value (mx : positive) (ex ez : Z) :
  ez <= ex -> Zpos (fst (shl_align mx ex ez)) = Zpos mx * 2 ^ (ex - ez).
Proof.
  intros H. unfold shl_align.
  destruct (ez - ex) as [|d|d] eqn:E; cbn [fst]; try lia.
  - replace (ex - ez) with 0 by lia. cbn. lia.
  - replace (ex - ez) with (Zpos d) by lia.
    change (Pos.iter xO mx d) with (Zpower.shift_pos d mx).
    rewrite Zpower.shift_pos_correct.
    change (Z.pow_pos 2 d) with (2 ^ Zpos d). ring.
Qed.

(** Rounding a number not below [mc * 2^-53], [mc] of 53 bits, gives a float
    not below it. *)
Lemma binary_round_lower (s : positive) (ez : Z) (mc : positive) :
  ez <= -53 -> 2 ^ 52 <= Zpos mc ->
  Zpos mc * 2 ^ (-53 - ez) <= Zpos s ->
  at_least mc (binary_round prec emax false s ez).
Proof.
  intros Hez Hmc Hs.
  pose proof (digits2_pos_bounds s) as Hd.
  set (d := Zpos (digits2_pos s)) in *.
  assert (Hp : 2 ^ 52 * 2 ^ (-53 - ez) = 2 ^ (-1 - ez)).
  { rewrite <- Z.pow_add_r by lia. f_equal. lia. }
  assert (Hlow : 2 ^ (-1 - ez) <= Zpos s).
  { rewrite <- Hp. etransitivity; [|exact Hs].
    apply Z.mul_le_mono_nonneg_r; [apply Z.pow_nonneg; lia | exact Hmc]. }
  assert (Hde : -1 - ez < d).
  { apply (Z.pow_lt_mono_r_iff 2); lia. }
  assert (Hf : fexp prec emax (d + ez) = d + ez - 53).
  { unfold fexp, emin, prec, emax. lia. }
  unfold binary_round. fold d. rewrite Hf.
  assert (Hsh : shl_align s ez (d + ez - 53) = (s, ez)).
  { unfold shl_align. destruct (d + ez - 53 - ez) eqn:E; try reflexivity. lia. }
  rewrite Hsh.
  unfold binary_round_aux, shr_fexp.
  change (Zdigits2 (Zpos s)) with d. rewrite Hf.
  destruct (shr_spec (shr_record_of_loc (Zpos s) loc_Exact) ez (d + ez - 53 - ez))
    as (r1 & E1 & M1); [cbn; lia|].
  rewrite E1. cbn [shr_m shr_record_of_loc] in M1.
  replace (d + ez - 53 - ez) with (d - 53) in * by lia.
  rewrite Z.max_l in * by lia.
  set (e1 := ez + (d - 53)).
  (* the mantissa after the first shift has 53 bits *)
  assert (Hpow : 2 ^ (d - 1) = 2 ^ 52 * 2 ^ (d - 53)).
  { rewrite <- Z.pow_add_r by lia. f_equal. lia. }
  assert (Hq : 0 < 2 ^ (d - 53)) by (apply Z.pow_pos_nonneg; lia).
  assert (H1 : 2 ^ 52 <= shr_m r1).
  { rewrite M1. apply Z.div_le_lower_bound; [lia|]. rewrite Z.mul_comm, <- Hpow. lia. }
  assert (H1c : e1 = -53 -> Zpos mc <= shr_m r1).
  { intros He. rewrite M1. apply Z.div_le_lower_bound; [lia|].
    replace (d - 53) with (-53 - ez) by (unfold e1 in He; lia).
    rewrite Z.mul_comm. exact Hs. }
  pose proof (rne_bounds (shr_m r1) (loc_of_shr_record r1)) as Hr.
  set (m2 := round_nearest_even (shr_m r1) (loc_of_shr_record r1)) in *.
  assert (Hm2 : 0 < m2) by lia.
  pose proof (Zdigits2_bounds Hm2) as Hd2.
  set (d2 := Zdigits2 m2) in *.
  assert (Hd2' : 53 <= d2).
  { assert (2 ^ 52 < 2 ^ d2) by lia.
    assert (52 < d2); [|lia].
    apply (Z.pow_lt_mono_r_iff 2); try lia.
    destruct (Z.le_gt_cases 0 d2) as [|Hn]; [assumption|].
    rewrite (Z.pow_neg_r 2 d2) in * by lia. lia. }
  assert (Hf2 : fexp prec emax (d2 + e1) = d2 + e1 - 53).
  { unfold fexp, emin, prec, emax. unfold e1. lia. }
  rewrite Hf2.
  destruct (shr_spec (shr_record_of_loc m2 loc_Exact) e1 (d2 + e1 - 53 - e1))
    as (r2 & E2 & M2); [cbn; lia|].
  rewrite E2. cbn [shr_m shr_record_of_loc] in M2.
  replace (d2 + e1 - 53 - e1) with (d2 - 53) in * by lia.
  rewrite Z.max_l in * by lia.
  assert (Hpow2 : 2 ^ (d2 - 1) = 2 ^ 52 * 2 ^ (d2 - 53)).
  { rewrite <- Z.pow_add_r by lia. f_equal. lia. }
  assert (Hq2 : 0 < 2 ^ (d2 - 53)) by (apply Z.pow_pos_nonneg; lia).
  assert (H3 : 2 ^ 52 <= shr_m r2).
  { rewrite M2. apply Z.div_le_lower_bound; [lia|]. rewrite Z.mul_comm, <- Hpow2. lia. }
  assert (H3c : d2 = 53 -> shr_m r2 = m2).
  { intros ->. rewrite M2. cbn. apply Z.div_1_r. }
  assert (P52 : 0 < 2 ^ 52) by (apply Z.pow_pos_nonneg; lia).
  destruct (shr_m r2) as [|q|q] eqn:Eq; try lia.
  destruct (Z.leb _ _); [|exact I].
  cbn [at_least].
  destruct (Z.eq_dec d2 53) as [E53|N53].
  - destruct (Z.eq_dec e1 (-53)) as [Ee|Ne].
    + right. split; [lia|]. specialize (H3c E53). specialize (H1c Ee).
      assert (Zpos mc <= Zpos q) by lia. lia.
    + left. unfold e1 in *. lia.
  - left. unfold e1 in *. lia.
Qed.


Lemma of_nat_cases (n : nat) :
  of_nat n = S754_zero false \/ exists p, of_nat n = S754_finite false p 0.
Proof. destruct n; [left | right; eexists]; reflexivity. Qed.

Lemma fdiv_nonneg (a b : nat) : b <> 0%nat -> nonneg (fdiv (of_nat a) (of_nat b)).
Proof.
  intros Hb. destruct b as [|b]; [congruence|].
  destruct (of_nat_cases a) as [-> | (p & ->)]; [exact I|].
  cbn [of_nat]. unfold fdiv, SFdiv. cbn [xorb].
  unfold SFdiv_core_binary.
  match goal with
  | |- context [Z.div_eucl ?x ?y] =>
      assert (Hx : 0 <= x); [| pose proof (Z.div_pos x y Hx ltac:(lia)) as Hq;
                               unfold Z.div in Hq; destruct (Z.div_eucl x y) as [q r]]
  end.
  { match goal with
    | |- 0 <= match ?s with _ => _ end => destruct s
    end; try lia. apply Z.shiftl_nonneg. lia. }
  now apply binary_round_aux_nonneg.
Qed.

Lemma fmul_nonneg (y : float) (m : positive) (e : Z) :
  nonneg y -> nonneg (fmul y (S754_finite false m e)).
Proof.
  destruct y as [s | [] | | [] my ey]; cbn; try tauto. intros _.
  apply binary_round_aux_nonneg. lia.
Qed.

Lemma fmul_comm (x y : float) : fmul x y = fmul y x.
Proof.
  unfold fmul.
  destruct x as [sx | sx | | sx mx ex], y as [sy | sy | | sy my ey]; cbn;
    rewrite ?(xorb_comm sx sy); try reflexivity.
  now rewrite (Pos.mul_comm mx my), (Z.add_comm ex ey).
Qed.

(** Adding something that is not negative to [mc * 2^-53] does not go
    below it. *)
Lemma fadd_lower (mc : positive) (y : float) :
  2 ^ 52 <= Zpos mc -> nonneg y ->
  at_least mc (fadd (S754_finite false mc (-53)) y).
Proof.
  intros Hmc Hy.
  destruct y as [s | [] | | [] my ey]; cbn [nonneg] in Hy; try tauto.
  - cbn. right. split; [reflexivity | lia].
  - unfold fadd, SFadd. cbn [cond_Zopp].
    set (ez := Z.min (-53) ey).
    assert (Hez : ez <= -53) by (unfold ez; lia).
    assert (Hey : ez <= ey) by (unfold ez; lia).
    pose proof (shl_align_value mc Hez) as Ha.
    pose proof (shl_align_value my Hey) as Hb.
    set (a := fst (shl_align mc (-53) ez)) in *.
    set (b := fst (shl_align my ey ez)) in *.
    change (Zpos a + Zpos b) with (Zpos (a + b)).
    cbn [binary_normalize].
    apply binary_round_lower; try assumption.
    rewrite Pos2Z.inj_add, Ha. lia.
Qed.

Lemma at_least_mono (m1 m2 : positive) (x : float) :
  (m1 <= m2)%positive -> at_least m2 x -> at_least m1 x.
Proof.
  destruct x as [s | [] | | [] m e]; cbn; try tauto.
  intros H [H1 | [H1 H2]]; [left | right]; try assumption. split; [assumption | lia].
Qed.

(** Comparing with a float of exponent -53. *)
Lemma at_least_fle (mb mc : positive) (x : float) :
  (mb <= mc)%positive -> at_least mc x ->
  fle (S754_finite false mb (-53)) x = true.
Proof.
  destruct x as [s | [] | | [] m e]; cbn [at_least]; try tauto; intros Hb H.
  unfold fle, SFleb, SFcompare.
  destruct H as [H | [-> H]].
  - destruct (Z.compare_spec (-53) e); try lia; reflexivity.
  - rewrite Z.compare_refl.
    change (Pos.compare_cont Eq mb m) with (Pos.compare mb m).
    destruct (Pos.compare_spec mb m); try reflexivity; lia.
Qed.

Lemma at_least_positive (mc : positive) (x : float) :
  at_least mc x -> flt f0_0 x = true.
Proof. destruct x as [s | [] | | [] m e]; cbn; tauto. Qed.

Lemma at_least_nonneg_le (mc : positive) (x : float) :
  at_least mc x -> fle f0_0 x = true.
Proof. destruct x as [s | [] | | [] m e]; cbn; tauto. Qed.

(** On numbers, [not (a < x)] is [x <= a]. *)
Lemma not_flt_fle (a x : float) :
  a <> S754_nan -> x <> S754_nan -> flt a x = false -> fle x a = true.
Proof.
  unfold flt, fle, SFltb, SFleb.
  destruct a as [[] | [] | | [] ma ea], x as [[] | [] | | [] mx ex];
    cbn [SFcompare]; try congruence; intros _ _.
  - change (Pos.compare_cont Eq mx ma) with (Pos.compare_cont (CompOpp Eq) mx ma).
    rewrite (Z.compare_antisym ea ex), <- (Pos.compare_cont_antisym ma mx Eq).
    destruct (ea ?= ex); cbn [CompOpp]; try congruence.
    destruct (Pos.compare_cont Eq ma mx); cbn [CompOpp]; congruence.
  - change (Pos.compare_cont Eq mx ma) with (Pos.compare_cont (CompOpp Eq) mx ma).
    rewrite (Z.compare_antisym ea ex), <- (Pos.compare_cont_antisym ma mx Eq).
    destruct (ea ?= ex); cbn [CompOpp]; try congruence.
    destruct (Pos.compare_cont Eq ma mx); cbn [CompOpp]; congruence.
Qed.

Lemma at_least_not_nan (mc : positive) (x : float) : at_least mc x -> x <> S754_nan.
Proof. destruct x; cbn; congruence || tauto. Qed.

(** [min(x, 1.0)] of such a float stays in the range and is at most one. *)
Lemma py_min_one (mc : positive) (x : float) :
  at_least mc x ->
  at_least mc (py_min x f1_0) /\ fle (py_min x f1_0) f1_0 = true.
Proof.
  intros H. unfold py_min.
  destruct (flt f1_0 x) eqn:E.
  - split; [left; reflexivity | reflexivity].
  - split; [assumption|].
    apply not_flt_fle; [discriminate | eapply at_least_not_nan; eassumption | exact E].
Qed.


Lemma base_exact : fadd f0_8 f0_15 = S754_finite false m0_95 (-53).
Proof. vm_compute. reflexivity. Qed.

(** Every confidence a match can receive lies between 0.8 and 1. *)
Lemma _calculate_confidence_range (m : rmatch) (text pattern : string) :
  text <> EmptyString ->
  exists c, _calculate_confidence m text pattern = Ok c
            /\ at_least m0_8 c /\ fle c f1_0 = true.
Proof.
  intros Ht. unfold _calculate_confidence, int_truediv.
  destruct (String.length text) as [|n] eqn:El.
  { destruct text; [congruence | discriminate El]. }
  cbn [bind].
  set (ratio := fdiv _ _).
  assert (Hr : nonneg ratio) by (apply fdiv_nonneg; discriminate).
  assert (Hy : nonneg (fmul ratio f0_1)) by (apply fmul_nonneg, Hr).
  eexists. split; [reflexivity|].
  destruct (String.eqb (group0 m) text).
  - rewrite base_exact.
    destruct (@py_min_one m0_95 (fadd (S754_finite false m0_95 (-53)) (fmul ratio f0_1)))
      as [H1 H2].
    { apply fadd_lower; [apply Z.leb_le; reflexivity | assumption]. }
    split; [|exact H2]. eapply at_least_mono; [|exact H1]. apply Pos.leb_le. reflexivity.
  - apply py_min_one. apply (@fadd_lower m0_8); [apply Z.leb_le; reflexivity | assumption].
Qed.

End FloatFacts.
Import FloatFacts.

(** ** The order of the floats that are not negative *)

Module OrderFacts.
Local Open Scope Z_scope.

(** The comparison of two positive finite floats, through the specifications
    of the integer comparisons. *)
Lemma finite_flt (m1 m2 : positive) (e1 e2 : Z) :
  flt (S754_finite false m1 e1) (S754_finite false m2 e2) = true
  <-> e1 < e2 \/ (e1 = e2 /\ (m1 < m2)%positive).
Proof.
  unfold flt, SFltb, SFcompare. rewrite Pos.compare_cont_spec. cbn [Pos.switch_Eq].
  destruct (Z.compare_spec e1 e2); [destruct (Pos.compare_spec m1 m2)| |];
    split; intros; try discriminate; try reflexivity; lia.
Qed.

Lemma finite_flt_false (m1 m2 : positive) (e1 e2 : Z) :
  flt (S754_finite false m1 e1) (S754_finite false m2 e2) = false
  <-> e2 < e1 \/ (e1 = e2 /\ (m2 <= m1)%positive).
Proof.
  pose proof (finite_flt m1 m2 e1 e2) as [H1 H2].
  destruct (flt _ _).
  - split; [discriminate | intros H'; specialize (H1 eq_refl); lia].
  - split; [intros _ | reflexivity].
    destruct (Z.lt_trichotomy e1 e2) as [L | [L | L]];
      [specialize (H2 (or_introl L)); discriminate | | lia].
    destruct (Pos.lt_total m1 m2) as [P | [P | P]];
      [specialize (H2 (or_intror (conj L P))); discriminate | lia | lia].
Qed.

Lemma flt_trans (a b c : float) :
  nonneg a -> nonneg b -> nonneg c ->
  flt a b = true -> flt b c = true -> flt a c = true.
Proof.
  destruct a as [sa | [] | | [] ma ea], b as [sb | [] | | [] mb eb],
           c as [sc | [] | | [] mc ec];
    cbn [nonneg]; try tauto; intros _ _ _; try (cbn; congruence).
  rewrite !finite_flt. lia.
Qed.

(** If [b] is not above [a] and [a] is below [c], then [b] is below [c]. *)
Lemma flt_le_lt (a b c : float) :
  nonneg a -> nonneg b -> nonneg c ->
  flt a b = false -> flt a c = true -> flt b c = true.
Proof.
  destruct a as [sa | [] | | [] ma ea], b as [sb | [] | | [] mb eb],
           c as [sc | [] | | [] mc ec];
    cbn [nonneg]; try tauto; intros _ _ _; try (cbn; congruence).
  rewrite !finite_flt, finite_flt_false. lia.
Qed.

Lemma at_least_is_nonneg (mc : positive) (x : float) : at_least mc x -> nonneg x.
Proof. destruct x as [s | [] | | [] m e]; cbn; tauto. Qed.

End OrderFacts.

Module LoopFacts.
Import OrderFacts.

Lemma for_each_app {A S : Type} (body : S -> A -> result S) (l1 l2 : list A) (st : S) :
  for_each (l1 ++ l2) body st = (st' <- for_each l1 body st ;; for_each l2 body st').
Proof.
  revert st. induction l1 as [|a l1 IH]; intros st; cbn; [reflexivity|].
  destruct (body st a); cbn; [apply IH | reflexivity].
Qed.

Lemma for_each_map {A B S : Type} (f : A -> B) (body : S -> B -> result S)
      (l : list A) (st : S) :
  for_each (map f l) body st = for_each l (fun st a => body st (f a)) st.
Proof.
  revert st. induction l as [|a l IH]; intros st; cbn; [reflexivity|].
  destruct (body st (f a)); cbn; [apply IH | reflexivity].
Qed.

Lemma for_each_ext {A S : Type} (b1 b2 : S -> A -> result S) (l : list A) (st : S) :
  (forall st a, b1 st a = b2 st a) -> for_each l b1 st = for_each l b2 st.
Proof.
  intros E. revert st. induction l as [|a l IH]; intros st; cbn; [reflexivity|].
  rewrite E. destruct (b2 st a); cbn; [apply IH | reflexivity].
Qed.

(** The three nested loops visit the patterns in catalog order. *)
Lemma classify_catalog (t : string) :
  classify t =
  for_each catalog (fun st '(intent_type, group, p) => pattern_step t intent_type group st p)
           best_init.
Proof.
  unfold classify, catalog. generalize best_init. generalize _load_patterns.
  induction l as [|[it gs] l IH]; intros st; cbn [for_each flat_map]; [reflexivity|].
  rewrite for_each_app.
  assert (E : forall st,
             for_each gs (fun st g => for_each (patterns g) (pattern_step t it g) st) st =
             for_each (flat_map (fun g => map (fun p => (it, g, p)) (patterns g)) gs)
                      (fun st '(intent_type, group, p) => pattern_step t intent_type group st p)
                      st).
  { clear. induction gs as [|g gs IHg]; intros st; cbn [for_each flat_map]; [reflexivity|].
    rewrite for_each_app, for_each_map.
    destruct (for_each (patterns g) _ st); cbn [bind]; [apply IHg | reflexivity]. }
  rewrite E.
  destruct (for_each _ _ st); cbn [bind]; [apply IH | reflexivity].
Qed.

Lemma _calculate_confidence_ok (m : rmatch) (t pattern : string) (c : float) :
  _calculate_confidence m t pattern = Ok c ->
  t <> EmptyString /\ at_least m0_8 c /\ fle c f1_0 = true.
Proof.
  intros H. destruct t as [|a t].
  - discriminate H.
  - assert (Ht : String a t <> EmptyString) by discriminate.
    destruct (@_calculate_confidence_range m (String a t) pattern Ht) as (c' & E & R).
    rewrite E in H. injection H as <-. split; assumption.
Qed.

Lemma empty_text_unmatched :
  forallb (fun '(_, _, p) => match re_search false p EmptyString with None => true | Some _ => false end)
          catalog = true.
Proof. vm_compute. reflexivity. Qed.

(** One pattern: the running best is replaced exactly by [pick]. *)
Lemma pattern_step_pick (t : string) (it : IntentType) (g : pattern_group) (st : best)
      (p : string) :
  In (it, g, p) catalog ->
  pattern_step t it g st p = Ok (fold_left pick (candidate_of t (it, g, p)) st).
Proof.
  intros Hin. unfold pattern_step, candidate_of.
  destruct (re_search false p t) as [m|] eqn:Em; [|reflexivity].
  destruct t as [|a t].
  - pose proof empty_text_unmatched as H. rewrite forallb_forall in H.
    specialize (H _ Hin). cbn beta iota in H. rewrite Em in H. discriminate H.
  - assert (Ht : String a t <> EmptyString) by discriminate.
    destruct (@_calculate_confidence_range m (String a t) p Ht) as (c & -> & _).
    cbn [bind fold_left]. unfold pick. cbn [best_confidence].
    destruct (flt _ _); reflexivity.
Qed.

Lemma classify_pick (t : string) :
  classify t = Ok (fold_left pick (candidates t) best_init).
Proof.
  rewrite classify_catalog. unfold candidates. generalize best_init.
  assert (Hsub : forall e, In e catalog -> In e catalog) by auto.
  revert Hsub. generalize catalog at 1 3 4.
  induction l as [|[[it g] p] l IH]; intros Hsub st; cbn [for_each flat_map]; [reflexivity|].
  rewrite pattern_step_pick by (apply Hsub; left; reflexivity).
  cbn [bind]. rewrite fold_left_app. apply IH. intros e He. apply Hsub. now right.
Qed.

Lemma catalog_types :
  forallb (fun '(it, _, _) => catalog_type it) catalog = true.
Proof. vm_compute. reflexivity. Qed.

(** What every candidate looks like. *)
Lemma candidates_range (t : string) (c : best) :
  In c (candidates t) ->
  catalog_type (best_intent c) = true
  /\ at_least m0_8 (best_confidence c) /\ fle (best_confidence c) f1_0 = true.
Proof.
  unfold candidates. rewrite in_flat_map. intros ([[it g] p] & Hin & Hc).
  pose proof catalog_types as Ht. rewrite forallb_forall in Ht. specialize (Ht _ Hin).
  cbn beta iota in Ht.
  unfold candidate_of in Hc.
  destruct (re_search false p t) as [m|]; [|destruct Hc].
  destruct (_calculate_confidence m t p) as [conf|] eqn:E; [|destruct Hc].
  destruct Hc as [<- | []]. cbn.
  apply _calculate_confidence_ok in E. tauto.
Qed.

(** The loop keeps the earliest of the greatest candidates. *)
Lemma pick_earliest_greatest (cands : list best) :
  Forall (fun c => at_least m0_8 (best_confidence c)) cands ->
  cands <> [] ->
  earliest_greatest (fold_left pick cands best_init) cands.
Proof.
  induction cands as [|x l IH] using rev_ind; intros Hall Hne; [congruence|].
  apply Forall_app in Hall. destruct Hall as [Hl Hx].
  apply Forall_inv in Hx.
  rewrite fold_left_app. cbn [fold_left].
  destruct l as [|y l'].
  - cbn. unfold pick. cbn [best_confidence best_init].
    rewrite (at_least_positive _ _ Hx).
    exists [], []. repeat split; constructor.
  - destruct IH as (before & after & E & Hb & Ha); [assumption | discriminate |].
    set (b := fold_left pick (y :: l') best_init) in *.
    assert (Hbin : at_least m0_8 (best_confidence b)).
    { rewrite Forall_forall in Hl. apply Hl. rewrite E. apply in_elt. }
    unfold pick. destruct (flt (best_confidence b) (best_confidence x)) eqn:Ef.
    + exists (y :: l'), []. split; [reflexivity|]. split; [|constructor].
      rewrite E. apply Forall_app. split; [|constructor].
      * rewrite Forall_forall in *. intros c Hc.
        apply flt_trans with (b := best_confidence b); eauto using at_least_is_nonneg.
        -- eapply at_least_is_nonneg, Hl. rewrite E. apply in_or_app. now left.
      * exact Ef.
      * rewrite Forall_forall in *. intros c Hc.
        apply flt_le_lt with (a := best_confidence b); eauto using at_least_is_nonneg.
        eapply at_least_is_nonneg, Hl. rewrite E. apply in_or_app. right. now right.
    + exists before, (after ++ [x])%list. split.
      * rewrite E. rewrite <- app_assoc. reflexivity.
      * split; [assumption|]. apply Forall_app. split; [assumption|].
        constructor; [exact Ef | constructor].
Qed.

End LoopFacts.
Import OrderFacts LoopFacts.

(** ** Blank texts *)

Module MatchFacts.

Lemma all_chars_complete (c : ascii) : In c all_chars.
Proof.
  assert (H : existsb (Ascii.eqb c) all_chars = true).
  { destruct c as [[] [] [] [] [] [] [] []]; vm_compute; reflexivity. }
  apply existsb_exists in H. destruct H as (x & Hin & E).
  apply Ascii.eqb_eq in E. now subst.
Qed.

Lemma inked_set_sound (ic neg : bool) (items : list citem) (c : ascii) :
  inked_set ic neg items = true -> isspace c = true ->
  cls_match ic neg items c = false.
Proof.
  unfold inked_set. rewrite forallb_forall. intros H Hc.
  specialize (H c (all_chars_complete c)). rewrite Hc in H. cbn in H.
  now destruct (cls_match ic neg items c).
Qed.

Lemma all_space_tail (c : ascii) (s : list ascii) :
  all_space (c :: s) = true -> isspace c = true /\ all_space s = true.
Proof. cbn. now rewrite andb_true_iff. Qed.

(** On a blank text the continuation only ever sees blank texts. *)
Lemma mtch_blank_cont (ic : bool) (r : re) :
  forall s k, all_space s = true ->
              (forall s', all_space s' = true -> k s' = None) ->
              mtch ic r s k = None.
Proof.
  induction r as [| neg items | r1 IH1 r2 IH2 | r1 IH1 r2 IH2 | lo hi r1 IH1];
    intros s k Hs Hk; cbn [mtch].
  - now apply Hk.
  - destruct s as [|c s]; [reflexivity|].
    apply all_space_tail in Hs. destruct (cls_match ic neg items c); [|reflexivity].
    now apply Hk.
  - apply IH1; [assumption|]. intros s' Hs'. now apply IH2.
  - rewrite IH1 by assumption. now apply IH2.
  - generalize (match hi with Some h => h | None => List.length s end) as budget.
    intros budget. revert lo s Hs.
    induction budget as [|b IHb]; intros need s Hs.
    + destruct need; [now apply Hk | reflexivity].
    + rewrite IH1; [| assumption | intros s' Hs'; now apply IHb].
      destruct need; [now apply Hk | reflexivity].
Qed.

(** A pattern that needs a character other than whitespace matches no blank
    text, whatever follows it. *)
Lemma mtch_needs_ink (ic : bool) (r : re) :
  needs_ink ic r = true ->
  forall s k, all_space s = true -> mtch ic r s k = None.
Proof.
  induction r as [| neg items | r1 IH1 r2 IH2 | r1 IH1 r2 IH2 | lo hi r1 IH1];
    cbn [needs_ink]; intros Hn s k Hs; cbn [mtch].
  - discriminate.
  - destruct s as [|c s]; [reflexivity|].
    apply all_space_tail in Hs. destruct Hs as [Hc Hs]. now rewrite (@inked_set_sound _ _ _ _ Hn Hc).
  - apply orb_true_iff in Hn. destruct Hn as [Hn | Hn].
    + now apply IH1.
    + apply mtch_blank_cont; [assumption|]. intros s' Hs'. now apply IH2.
  - apply andb_true_iff in Hn. destruct Hn as [Hn1 Hn2].
    rewrite IH1 by assumption. now apply IH2.
  - apply andb_true_iff in Hn. destruct Hn as [Hlo Hn].
    apply Nat.ltb_lt in Hlo. destruct lo as [|need]; [lia|].
    generalize (match hi with Some h => h | None => List.length s end) as budget.
    intros [|b]; [reflexivity|].
    now rewrite IH1.
Qed.

Lemma search_blank (ic : bool) (r : re) :
  needs_ink ic r = true ->
  forall s pos, all_space s = true -> search_from ic r s pos = None.
Proof.
  intros Hn. induction s as [|c s IH]; intros pos Hs; cbn [search_from];
    unfold match_here; rewrite (@mtch_needs_ink _ _ Hn) by assumption.
  - reflexivity.
  - apply all_space_tail in Hs. now apply IH.
Qed.

Lemma finditer_blank (pattern text : string) :
  needs_ink true (compile pattern) = true -> blank text = true ->
  re_finditer true pattern text = [].
Proof.
  intros Hn Hb. unfold re_finditer. cbn [finditer_from].
  now rewrite (@search_blank _ _ Hn).
Qed.

Lemma extractors_need_ink :
  forallb (fun '(_, pats) => forallb (fun p => needs_ink true (compile p)) pats)
          _load_entity_extractors = true.
Proof. vm_compute. reflexivity. Qed.

Lemma flat_map_nil {A B : Type} (f : A -> list B) (l : list A) :
  (forall a, In a l -> f a = []) -> flat_map f l = [].
Proof.
  induction l as [|a l IH]; intros H; cbn; [reflexivity|].
  rewrite (H a) by now left. apply IH. intros b Hb. apply H. now right.
Qed.

(** No entity is found in a blank text. *)
Lemma extract_blank (text : string) :
  blank text = true -> _extract_entities text = [].
Proof.
  intros Hb. unfold _extract_entities.
  pose proof extractors_need_ink as H. rewrite forallb_forall in H.
  apply flat_map_nil. intros [kind pats] Hin.
  specialize (H _ Hin). cbn beta iota in H. rewrite forallb_forall in H.
  apply flat_map_nil. intros p Hp.
  now rewrite finditer_blank by auto.
Qed.

Lemma lower_char_space (c : ascii) : isspace c = true -> lower_char c = c.
Proof.
  destruct c as [[] [] [] [] [] [] [] []]; vm_compute; intros H;
    reflexivity || discriminate H.
Qed.

Lemma lstrip_blank (l : list ascii) : all_space l = true -> lstrip l = [].
Proof.
  induction l as [|c l IH]; [reflexivity|]. intros H.
  apply all_space_tail in H. destruct H as [Hc Hl]. cbn. rewrite Hc. now apply IH.
Qed.

Lemma map_lower_blank (l : list ascii) :
  all_space l = true -> map lower_char l = l.
Proof.
  induction l as [|c l IH]; [reflexivity|]. intros H.
  apply all_space_tail in H. destruct H as [Hc Hl]. cbn.
  now rewrite lower_char_space, IH.
Qed.

(** A blank text is normalized to the empty text. *)
Lemma normalize_blank (text : string) :
  blank text = true -> strip (lower text) = EmptyString.
Proof.
  unfold blank, strip, lower, chars_of, str_of. intros H.
  rewrite list_ascii_of_string_of_list_ascii, map_lower_blank by assumption.
  now rewrite lstrip_blank.
Qed.

End MatchFacts.
Import MatchFacts.

(** ** The recognizer and the coordinator *)

Module RecognizerFacts.

(** The classification never raises, and its result is the empty text's or
    the earliest of the greatest candidates. *)
Lemma classify_spec (t : string) :
  exists b, classify t = Ok b
            /\ ((candidates t = [] /\ b = best_init)
                \/ earliest_greatest b (candidates t)).
Proof.
  rewrite classify_pick. eexists. split; [reflexivity|].
  destruct (candidates t) as [|c l] eqn:E; [left; split; reflexivity | right].
  rewrite <- E. apply pick_earliest_greatest.
  - rewrite Forall_forall. intros x Hx. now apply candidates_range in Hx.
  - rewrite E. discriminate.
Qed.

Lemma earliest_greatest_in (b : best) (cands : list best) :
  earliest_greatest b cands -> In b cands.
Proof. intros (l1 & l2 & -> & _). apply in_elt. Qed.

(** The running best after the loops: untouched, or a candidate. *)
Lemma classify_cases (t : string) :
  exists b, classify t = Ok b
            /\ (b = best_init
                \/ (catalog_type (best_intent b) = true
                    /\ at_least m0_8 (best_confidence b)
                    /\ fle (best_confidence b) f1_0 = true)).
Proof.
  destruct (classify_spec t) as (b & E & [[_ Hb] | H]); exists b; split; auto.
  right. eapply candidates_range, earliest_greatest_in, H.
Qed.

Lemma catalog_type_not_unknown (t : IntentType) :
  catalog_type t = true -> IntentType_eqb t UNKNOWN = false.
Proof. now destruct t. Qed.

(** The three shapes of a recognized intent. *)
Lemma recognize_intent_cases (text : string) :
  exists i, recognize_intent text = Ok i
            /\ raw_text i = text
            /\ entities i = _extract_entities text
            /\ ((i_type i = UNKNOWN /\ i_confidence i = f0_0 /\ action i = None)
                \/ (i_type i = GENERAL_CHAT /\ i_confidence i = f0_7 /\ action i = None)
                \/ (catalog_type (i_type i) = true
                    /\ at_least m0_8 (i_confidence i)
                    /\ fle (i_confidence i) f1_0 = true)).
Proof.
  unfold recognize_intent.
  destruct (classify_cases (strip (lower text))) as (b & -> & [-> | H]); cbn [bind].
  - cbn [best_intent best_init IntentType_eqb].
    destruct (_is_general_chat _); eexists; (split; [reflexivity|]); cbn; auto 10.
  - destruct H as (Ht & Hc). rewrite (catalog_type_not_unknown _ Ht).
    eexists. split; [reflexivity|]. cbn. auto 10.
Qed.

End RecognizerFacts.

Module CoordinatorFacts.
Import RecognizerFacts.

Section Coordinator.

Variables Context Data : Type.
Variable handlers : Registry Context Data.
Variable request : AssistantRequest Context.

Lemma process_request_try_dispatch (i : Intent) :
  recognize_intent (text request) = Ok i ->
  process_request_try handlers request = dispatch handlers request i.
Proof. intros E. unfold process_request_try. rewrite E. reflexivity. Qed.

Lemma process_request_dispatch (i : Intent) :
  recognize_intent (text request) = Ok i ->
  process_request handlers request =
  match dispatch handlers request i with
  | Returns r => Returns r
  | Raises (Exception e) => Returns (error_response e)
  | Raises e => Raises e
  end.
Proof.
  intros E. unfold process_request. now rewrite (process_request_try_dispatch E).
Qed.

End Coordinator.

Lemma at_least_threshold (x : float) :
  at_least m0_8 x -> fle confidence_threshold x = true.
Proof. apply at_least_fle. apply Pos.leb_le. reflexivity. Qed.

Lemma is_task_catalog (i : Intent) :
  catalog_type (i_type i) = true -> at_least m0_8 (i_confidence i) -> is_task i = true.
Proof.
  intros Ht Hc. unfold is_task. rewrite (at_least_threshold _ Hc).
  now destruct (i_type i).
Qed.

End CoordinatorFacts.
Import RecognizerFacts CoordinatorFacts.

(** C3: for every input text, the recognizer returns an intent whose
    confidence lies in the closed interval from 0 to 1. *)
Theorem C3_confidence_in_unit_interval (text : string) :
  exists i, recognize_intent text = Ok i
            /\ fle f0_0 (i_confidence i) = true
            /\ fle (i_confidence i) f1_0 = true.
Proof.
  destruct (recognize_intent_cases text) as (i & E & _ & _ & H).
  exists i. split; [exact E|].
  destruct H as [(_ & -> & _) | [(_ & -> & _) | (_ & H1 & H2)]].
  - split; reflexivity.
  - split; reflexivity.
  - split; [eapply at_least_nonneg_le; eassumption | exact H2].
Qed.

(** C10: the confidence of a recognized intent is exactly 0.0 with type
    Unknown, exactly 0.7 with type GeneralChat, or at least 0.8 with a type of
    the catalog; an intent of the catalog therefore passes the 0.6 threshold,
    and the coordinator answers with [is_assistant_task = false], the
    general-conversation branch, exactly for Unknown and GeneralChat. *)
Theorem C10_confidence_levels (Context Data : Type)
        (handlers : Registry Context Data) (request : AssistantRequest Context) :
  exists i, recognize_intent (text request) = Ok i
            /\ ((i_type i = UNKNOWN /\ i_confidence i = f0_0)
                \/ (i_type i = GENERAL_CHAT /\ i_confidence i = f0_7)
                \/ (catalog_type (i_type i) = true
                    /\ fle f0_8 (i_confidence i) = true
                    /\ fle confidence_threshold (i_confidence i) = true))
            /\ is_task i = catalog_type (i_type i)
            /\ match process_request handlers request with
               | Returns response =>
                   is_assistant_task response = catalog_type (i_type i)
               | Raises _ => catalog_type (i_type i) = true
               end
            /\ (process_request handlers request
                = Returns (general_conversation Data i)
                \/ catalog_type (i_type i) = true).
Proof.
  destruct (recognize_intent_cases (text request)) as (i & E & _ & _ & H).
  exists i. split; [exact E|].
  rewrite (process_request_dispatch handlers request E). unfold dispatch.
  destruct H as [(Ht & Hc & _) | [(Ht & Hc & _) | (Ht & H1 & H2)]].
  - split; [left; split; assumption|].
    unfold is_task. rewrite Ht. cbn. auto.
  - split; [right; left; split; assumption|].
    unfold is_task. rewrite Ht. cbn. auto.
  - split.
    { right; right. split; [assumption|]. split.
      - eapply at_least_fle; [|eassumption]. apply Pos.le_refl.
      - now apply at_least_threshold. }
    rewrite (is_task_catalog i Ht H1), Ht. cbn [negb].
    split; [reflexivity|]. split; [|now right].
    destruct (lookup IntentType_eqb (i_type i) handlers) as [h|]; [|reflexivity].
    destruct (_check_missing_entities _ _); [|reflexivity].
    destruct (h i (entities i) (context request)) as [r | [e | c]]; reflexivity.
Qed.

(** C4: a pattern replaces the running best only when its confidence is
    strictly greater; the intents are examined in the order Calendar, Email,
    Reminder, Weather, News, Search and the patterns of each in declaration
    order; so the classification ends on the earliest of the candidates with
    the greatest confidence, and that is the recognized intent. *)
Theorem C4_earliest_greatest_wins (text : string) :
  let t := strip (lower text) in
  Forall (fun '(intent_type, group, p) =>
            forall st,
              pattern_step t intent_type group st p = Ok st
              \/ exists c,
                  flt (best_confidence st) c = true
                  /\ pattern_step t intent_type group st p
                     = Ok {| best_intent := intent_type;
                             best_confidence := c;
                             best_action := _extract_action t (actions group) |})
         catalog
  /\ map fst _load_patterns = [CALENDAR; EMAIL; REMINDER; WEATHER; NEWS; SEARCH]
  /\ classify t =
     for_each catalog
       (fun st '(intent_type, group, p) => pattern_step t intent_type group st p)
       best_init
  /\ exists b i,
      classify t = Ok b /\ recognize_intent text = Ok i
      /\ ((candidates t = [] /\ b = best_init)
          \/ (earliest_greatest b (candidates t)
              /\ i_type i = best_intent b
              /\ i_confidence i = best_confidence b
              /\ action i = best_action b)).
Proof.
  intros t. split; [|split; [reflexivity | split; [apply classify_catalog|]]].
  - rewrite Forall_forall. intros [[it g] p] Hin st.
    rewrite (pattern_step_pick t st Hin). unfold candidate_of.
    destruct (re_search false p t) as [m|]; [|now left].
    destruct (_calculate_confidence m t p) as [c|]; [|now left].
    cbn [fold_left]. unfold pick. cbn [best_confidence].
    destruct (flt (best_confidence st) c) eqn:E; [right | now left].
    exists c. now split.
  - destruct (classify_spec t) as (b & E & H).
    unfold recognize_intent. fold t. rewrite E. cbn [bind].
    exists b. eexists. split; [reflexivity|]. split; [reflexivity|].
    destruct H as [H | H]; [now left | right].
    split; [exact H|].
    apply earliest_greatest_in, candidates_range in H. destruct H as (Ht & _).
    rewrite (catalog_type_not_unknown _ Ht). cbn. auto.
Qed.

(** C5: on a text that is not empty, the confidence of a match is
    [min(0.8 + (0.15 if the match is the whole text, else 0)
         + 0.1 * (length of the match / length of the text), 1.0)]. *)
Theorem C5_confidence_formula (m : rmatch) (text pattern : string) :
  text <> EmptyString ->
  _calculate_confidence m text pattern = Ok (spec_confidence (group0 m) text).
Proof.
  intros Ht. unfold _calculate_confidence, spec_confidence, int_truediv.
  destruct (String.length text) as [|n] eqn:El.
  { destruct text; [congruence | discriminate El]. }
  cbn [bind]. rewrite (fmul_comm f0_1).
  destruct (String.eqb (group0 m) text); reflexivity.
Qed.

Lemma C5_confidence_formula_witness :
  "remind me to call mom" <> EmptyString
  /\ _calculate_confidence sample_match "remind me to call mom"
       "(?:remind|alert)\s+me\s+(?:to|about)"
     = Ok (spec_confidence "remind me to" "remind me to call mom").
Proof.
  split; [discriminate|].
  apply (@C5_confidence_formula sample_match). discriminate.
Defined.

(** C8: on a text that is empty or holds only whitespace, the recognizer
    returns type Unknown, confidence 0.0 and no entity. *)
Theorem C8_blank_text_unknown (text : string) :
  blank text = true ->
  recognize_intent text = Ok (unknown_intent text).
Proof.
  intros Hb. unfold recognize_intent.
  rewrite (normalize_blank text Hb), (extract_blank text Hb).
  reflexivity.
Qed.

Lemma C8_blank_text_unknown_witness :
  blank "   " = true /\ recognize_intent "   " = Ok (unknown_intent "   ").
Proof.
  split; [reflexivity|]. apply (@C8_blank_text_unknown "   "). reflexivity.
Defined.

Lemma filter_subseq {A : Type} (f : A -> bool) (l : list A) : subseq (filter f l) l.
Proof.
  induction l as [|a l IH]; cbn; [constructor|].
  destruct (f a); now constructor.
Qed.

Lemma dict_get_phrase (intent_type : IntentType) (kind : string) :
  dict_get String.eqb (dict_get IntentType_eqb questions intent_type []) kind kind
  = phrase intent_type kind.
Proof.
  unfold phrase, template, dict_get.
  destruct (lookup IntentType_eqb intent_type questions) as [qs|]; reflexivity.
Qed.

(** C9: when more than one required kind is missing, the question is the
    phrases of the missing kinds (the template of the intent type and the
    kind, or the name of the kind where there is no template) joined by
    commas into one prompt, and the missing kinds are those of the requirement
    list that no entity carries, in the order of that list. *)
Theorem C9_combined_question (intent_type : IntentType) (act : option string)
        (ents : list Entity) (required : list string) :
  let missing := _check_missing_entities ents required in
  2 <= List.length missing ->
  _generate_followup_question intent_type act missing
  = "I need to know: " ++ join ", " (map (phrase intent_type) missing)
  /\ subseq missing required
  /\ forall kind, In kind missing <->
                  In kind required /\ ~ In kind (map e_type ents).
Proof.
  intros missing Hlen. split; [|split].
  - unfold _generate_followup_question.
    destruct missing as [|k1 [|k2 rest]]; cbn in Hlen; try lia.
    f_equal. f_equal. apply map_ext. intros k. apply dict_get_phrase.
  - apply filter_subseq.
  - intros kind. unfold missing, _check_missing_entities.
    rewrite filter_In, negb_true_iff. split; intros [H1 H2]; split; try assumption.
    + intros Hin. assert (E : existsb (String.eqb kind) (map e_type ents) = true).
      { apply existsb_exists. exists kind. split; [assumption | apply String.eqb_refl]. }
      congruence.
    + destruct (existsb (String.eqb kind) (map e_type ents)) eqn:E; [|reflexivity].
      apply existsb_exists in E. destruct E as (x & Hx & Ex).
      apply String.eqb_eq in Ex. subst x. contradiction.
Qed.

Lemma C9_combined_question_witness :
  2 <= List.length (_check_missing_entities [] ["datetime"; "topic"])
  /\ _generate_followup_question REMINDER (Some "create")
       (_check_missing_entities [] ["datetime"; "topic"])
     = "I need to know: When would you like to be reminded? (e.g., 'tomorrow at 3pm', 'in 2 hours'), What would you like me to remind you about?".
Proof.
  split; [cbn; lia|].
  destruct (@C9_combined_question REMINDER (Some "create") [] ["datetime"; "topic"])
    as [E _]; [cbn; lia|].
  rewrite E. reflexivity.
Defined.

(** C6: "Remind me to call mom" is recognized as Reminder with action
    create; no entity of kind datetime or topic is extracted, so the missing
    kinds are datetime and topic in that order; the coordinator answers with
    [requires_followup = true] and one question that asks for both, whatever
    the registered handlers would do: the reminder handler is not run. *)
Theorem C6_remind_me_followup (Context Data : Type)
        (weather_handler reminder_handler search_handler : Handler Context Data)
        (uid : string) (ctx : Context) :
  exists i,
    recognize_intent "Remind me to call mom" = Ok i
    /\ i_type i = REMINDER
    /\ action i = Some "create"
    /\ existsb (fun e => String.eqb (e_type e) "datetime") (entities i) = false
    /\ existsb (fun e => String.eqb (e_type e) "topic") (entities i) = false
    /\ _check_missing_entities (entities i)
         (get_required_entities REMINDER (Some "create"))
       = ["datetime"; "topic"]
    /\ exists response,
         process_request
           (reference_registry weather_handler reminder_handler search_handler)
           {| text := "Remind me to call mom"; user_id := uid; context := ctx |}
         = Returns response
         /\ response
            = followup Data i
                "I need to know: When would you like to be reminded? (e.g., 'tomorrow at 3pm', 'in 2 hours'), What would you like me to remind you about?"
         /\ requires_followup response = true.
Proof.
  eexists. split; [vm_compute; reflexivity|].
  do 5 (split; [vm_compute; reflexivity|]).
  eexists. split; [vm_compute; reflexivity|].
  split; vm_compute; reflexivity.
Qed.

(** C7, as the code has it: a request whose intent has a type of the
    catalog, a confidence of at least 0.6 and no registered handler gets a
    terminal response with [success = false], [is_assistant_task = true] and
    the error "No handler available for " followed by the value of the type;
    no follow-up is asked and no handler is run.  In the reference registry
    the types without a handler are those other than Weather, Reminder and
    Search. *)
Theorem C7_no_handler_response (Context Data : Type)
        (handlers : Registry Context Data) (request : AssistantRequest Context)
        (i : Intent) :
  recognize_intent (text request) = Ok i ->
  i_type i <> UNKNOWN -> i_type i <> GENERAL_CHAT ->
  fle confidence_threshold (i_confidence i) = true ->
  lookup IntentType_eqb (i_type i) handlers = None ->
  exists response,
    process_request handlers request = Returns response
    /\ response = no_handler Data i
    /\ success response = false
    /\ is_assistant_task response = true
    /\ error response = Some ("No handler available for " ++ value (i_type i))
    /\ requires_followup response = false
    /\ followup_question response = None
    /\ forall (w r s : Handler Context Data) (t : IntentType),
        lookup IntentType_eqb t (reference_registry w r s) = None
        <-> t <> WEATHER /\ t <> REMINDER /\ t <> SEARCH.
Proof.
  intros E Hu Hg Hc Hl.
  assert (R : process_request handlers request = Returns (no_handler Data i)).
  { rewrite (process_request_dispatch handlers request E).
    unfold dispatch, is_task. rewrite Hc, Hl.
    destruct (i_type i); try congruence; reflexivity. }
  exists (no_handler Data i). split; [exact R|].
  repeat split; try reflexivity;
    try (intros ->; discriminate H); try (destruct t; cbn; intuition congruence).
Qed.

Lemma C7_no_handler_response_witness :
  recognize_intent (text (sample_request "schedule a meeting")) = Ok meeting_intent
  /\ exists response,
      process_request sample_registry (sample_request "schedule a meeting")
      = Returns response
      /\ error response = Some "No handler available for calendar".
Proof.
  assert (E : recognize_intent (text (sample_request "schedule a meeting"))
              = Ok meeting_intent) by (vm_compute; reflexivity).
  split; [exact E|].
  assert (H1 : i_type meeting_intent <> UNKNOWN) by discriminate.
  assert (H2 : i_type meeting_intent <> GENERAL_CHAT) by discriminate.
  assert (H3 : fle confidence_threshold (i_confidence meeting_intent) = true)
    by reflexivity.
  assert (H4 : lookup IntentType_eqb (i_type meeting_intent) sample_registry = None)
    by reflexivity.
  destruct (@C7_no_handler_response unit unit sample_registry
              (sample_request "schedule a meeting") meeting_intent E H1 H2 H3 H4)
    as (response & R & _ & _ & _ & H & _).
  exists response. split; [exact R | exact H].
Defined.

(** The claim C7 as the specification words it fails: the error of the
    response to "schedule a meeting" does not start with a small letter. *)
Lemma C7_error_text_differs :
  exists response,
    process_request sample_registry (sample_request "schedule a meeting")
    = Returns response
    /\ error response = Some "No handler available for calendar"
    /\ ~ (exists ty, error response = Some ("no handler available for " ++ ty)).
Proof.
  eexists. split; [vm_compute; reflexivity|].
  split; [reflexivity|].
  intros (ty & H). vm_compute in H. discriminate H.
Qed.

(** C2, as the code has it: the classification, the gates and the
    requirement check raise nothing, and every request that does not reach a
    handler gets its response.  When the handler is run, what it does decides:
    its answer is forwarded; an instance of [Exception] it raises is caught
    and the response is the terminal one of the [except] clause, with
    [success = false], [intent_type = "error"], [confidence = 0.0], the fixed
    apology, [str(e)] in [error] and [is_assistant_task = true]; any other
    exception it raises leaves [process_request]. *)
Theorem C2_failure_containment (Context Data : Type)
        (handlers : Registry Context Data) (request : AssistantRequest Context) :
  exists i,
    recognize_intent (text request) = Ok i
    /\ ((is_task i = false
         /\ process_request handlers request = Returns (general_conversation Data i))
        \/ (is_task i = true
            /\ lookup IntentType_eqb (i_type i) handlers = None
            /\ process_request handlers request = Returns (no_handler Data i))
        \/ (exists h missing,
               is_task i = true
               /\ lookup IntentType_eqb (i_type i) handlers = Some h
               /\ _check_missing_entities (entities i)
                    (get_required_entities (i_type i) (action i)) = missing
               /\ missing <> []
               /\ process_request handlers request
                  = Returns (followup Data i
                               (_generate_followup_question (i_type i) (action i) missing)))
        \/ (exists h,
               is_task i = true
               /\ lookup IntentType_eqb (i_type i) handlers = Some h
               /\ _check_missing_entities (entities i)
                    (get_required_entities (i_type i) (action i)) = []
               /\ match h i (entities i) (context request) with
                  | Returns r =>
                      process_request handlers request = Returns (forwarded i r)
                  | Raises (Exception e) =>
                      exists response,
                        process_request handlers request = Returns response
                        /\ response = error_response e
                        /\ success response = false
                        /\ intent_type response = "error"
                        /\ confidence response = f0_0
                        /\ message response
                           = "I encountered an error while processing your request. Please try again."
                        /\ error response = Some e
                        /\ is_assistant_task response = true
                  | Raises (NonException c) =>
                      process_request handlers request = Raises (NonException c)
                  end)).
Proof.
  destruct (recognize_intent_cases (text request)) as (i & E & _).
  exists i. split; [exact E|].
  rewrite (process_request_dispatch handlers request E). unfold dispatch.
  destruct (is_task i) eqn:Et; cbn [negb]; [|left; split; reflexivity].
  destruct (lookup IntentType_eqb (i_type i) handlers) as [h|] eqn:El;
    [|right; left; repeat split; reflexivity].
  cbv zeta.
  destruct (_check_missing_entities (entities i)
              (get_required_entities (i_type i) (action i))) as [|k missing] eqn:Em.
  - right; right; right. exists h. repeat split; try assumption.
    destruct (h i (entities i) (context request)) as [r | [e | c]];
      [reflexivity | | reflexivity].
    eexists. split; [reflexivity|]. repeat split.
  - right; right; left. exists h, (k :: missing).
    repeat split; try assumption; try reflexivity. discriminate.
Qed.

(** The claim C2 as the specification words it fails: a handler that is
    cancelled while it is awaited raises outside [Exception], the [except]
    clause does not catch it, and the request gets no response. *)
Lemma C2_cancellation_escapes :
  process_request (reference_registry cancelled_handler raising_handler raising_handler)
                  (sample_request "current weather forecast")
  = Raises (NonException "CancelledError")
  /\ ~ (exists response,
          process_request
            (reference_registry cancelled_handler raising_handler raising_handler)
            (sample_request "current weather forecast")
          = Returns response).
Proof.
  assert (E : process_request
                (reference_registry cancelled_handler raising_handler raising_handler)
                (sample_request "current weather forecast")
              = Raises (NonException "CancelledError")) by (vm_compute; reflexivity).
  split; [exact E|]. intros (response & H). rewrite E in H. discriminate H.
Qed.

(** C1: "What's the weather like?" is the first example that
    [get_capabilities] gives for the weather capability, and the
    requirements of (Weather, current) are none; but the text is not
    recognized as Weather.  The weather patterns want white space after
    "what", so no pattern of the catalog matches: the intent is Unknown with
    confidence 0.0 and no action, and for every registry the coordinator
    answers with the general-conversation response and runs no handler.  The
    same question written "What is the weather like?" is recognized as
    Weather, with the action read of the keyword fallback. *)
Theorem C1_weather_like_not_recognized :
  (exists c,
      lookup String.eqb "weather" (available_capabilities get_capabilities) = Some c
      /\ In "What's the weather like?" (c_examples c))
  /\ get_required_entities WEATHER (Some "current") = []
  /\ recognize_intent "What's the weather like?"
     = Ok (unknown_intent "What's the weather like?")
  /\ ~ (exists i,
           recognize_intent "What's the weather like?" = Ok i
           /\ i_type i = WEATHER
           /\ action i = Some "current"
           /\ fle confidence_threshold (i_confidence i) = true)
  /\ (forall (Context Data : Type) (handlers : Registry Context Data)
             (uid : string) (ctx : Context),
         process_request handlers
           {| text := "What's the weather like?"; user_id := uid; context := ctx |}
         = Returns (general_conversation Data (unknown_intent "What's the weather like?")))
  /\ (exists i,
         recognize_intent "What is the weather like?" = Ok i
         /\ i_type i = WEATHER
         /\ action i = Some "read").
Proof.
  assert (E : recognize_intent "What's the weather like?"
              = Ok (unknown_intent "What's the weather like?"))
    by (vm_compute; reflexivity).
  split; [eexists; split; [reflexivity | left; reflexivity]|].
  split; [reflexivity|]. split; [exact E|]. split.
  - intros (i & Ei & Ht & _). rewrite E in Ei. injection Ei as <-. discriminate Ht.
  - split.
    + intros Context Data handlers uid ctx.
      rewrite (@process_request_dispatch Context Data handlers
                 {| text := "What's the weather like?"; user_id := uid; context := ctx |}
                 (unknown_intent "What's the weather like?") E).
      reflexivity.
    + eexists. split; [vm_compute; reflexivity | split; reflexivity].
Qed.

(** * Further properties of the code *)

Module SpanFacts.

(** A successful match hands a suffix of the text to its continuation, a
    proper one when the pattern cannot match the empty text. *)
Lemma mtch_consumes (ic : bool) (r : re) :
  forall s k x,
    mtch ic r s k = Some x ->
    exists p s', s = (p ++ s')%list /\ k s' = Some x
                 /\ (nullable r = false -> p <> []).
Proof.
  induction r as [| neg items | r1 IH1 r2 IH2 | r1 IH1 r2 IH2 | lo hi r1 IH1];
    intros s k x H; cbn [mtch nullable] in *.
  - exists [], s. repeat split; auto. discriminate.
  - destruct s as [|c s]; [discriminate|].
    destruct (cls_match ic neg items c); [|discriminate].
    exists [c], s. repeat split; auto. discriminate.
  - apply IH1 in H. destruct H as (p1 & s1 & -> & H & N1).
    apply IH2 in H. destruct H as (p2 & s2 & -> & H & N2).
    exists (p1 ++ p2)%list, s2. rewrite app_assoc. repeat split; auto.
    intros Hn. apply andb_false_iff in Hn. intros E. apply app_eq_nil in E.
    destruct E as [E1 E2], Hn as [Hn | Hn]; [now apply N1 | now apply N2].
  - destruct (mtch ic r1 s k) eqn:E1.
    + injection H as ->. apply IH1 in E1. destruct E1 as (p & s' & -> & Hk & N).
      exists p, s'. repeat split; auto. intros Hn. apply orb_false_iff in Hn. tauto.
    + apply IH2 in H. destruct H as (p & s' & -> & Hk & N).
      exists p, s'. repeat split; auto. intros Hn. apply orb_false_iff in Hn. tauto.
  - revert H.
    generalize (match hi with Some h => h | None => List.length s end) as budget.
    intros budget.
    assert (L : forall need s,
               (fix loop (budget need : nat) (s : list ascii) {struct budget} :
                  option (list ascii) :=
                  let stop := match need with 0 => k s | S _ => None end in
                  match budget with
                  | 0 => stop
                  | S b =>
                      match mtch ic r1 s (fun s' => loop b (pred need) s') with
                      | Some x => Some x
                      | None => stop
                      end
                  end) budget need s = Some x ->
               exists p s', s = (p ++ s')%list /\ k s' = Some x
                            /\ (need <> 0 -> nullable r1 = false -> p <> [])).
    { induction budget as [|b IHb]; intros need s0 H; cbn in H.
      - destruct need; [|discriminate]. exists [], s0. repeat split; auto; congruence.
      - match type of H with
        | match ?m with _ => _ end = _ => destruct m eqn:E1
        end.
        + injection H as ->. apply IH1 in E1. destruct E1 as (p1 & s1 & -> & H & N1).
          apply IHb in H. destruct H as (p2 & s2 & -> & H & N2).
          exists (p1 ++ p2)%list, s2. rewrite app_assoc. repeat split; auto.
          intros _ Hn E. apply app_eq_nil in E. destruct E as [E _]. now apply N1.
        + destruct need; [|discriminate]. exists [], s0. repeat split; auto; congruence. }
    intros H. apply L in H. destruct H as (p & s' & -> & Hk & N).
    exists p, s'. repeat split; auto. intros Hn. apply orb_false_iff in Hn.
    destruct Hn as [Hlo Hn]. apply N; [|assumption].
    intros ->. discriminate Hlo.
Qed.

Lemma match_here_bounds (ic : bool) (r : re) (s : list ascii) (n : nat) :
  match_here ic r s = Some n ->
  n <= List.length s /\ (nullable r = false -> 0 < n).
Proof.
  unfold match_here. destruct (mtch ic r s (fun rest => Some rest)) as [rest|] eqn:E;
    [|discriminate].
  intros H. injection H as <-. apply mtch_consumes in E.
  destruct E as (p & s' & -> & Hk & N). injection Hk as ->.
  rewrite length_app. split; [lia|]. intros Hn. specialize (N Hn).
  destruct p; [congruence | cbn [List.length]; lia].
Qed.

Lemma search_from_bounds (ic : bool) (r : re) :
  forall s pos a b,
    search_from ic r s pos = Some (a, b) ->
    pos <= a /\ a <= b /\ b <= pos + List.length s
    /\ (nullable r = false -> a < b)
    /\ match_here ic r (skipn (a - pos) s) = Some (b - a).
Proof.
  induction s as [|c s IH]; intros pos a b H; cbn [search_from] in H.
  - destruct (match_here ic r []) as [n|] eqn:E; [|discriminate].
    injection H as <- <-. pose proof (match_here_bounds _ _ _ E) as [H1 H2].
    replace (pos - pos) with 0 by lia. replace (pos + n - pos) with n by lia.
    cbn [skipn]. repeat split; auto; try lia. intros Hn. specialize (H2 Hn). lia.
  - destruct (match_here ic r (c :: s)) as [n|] eqn:E.
    + injection H as <- <-. pose proof (match_here_bounds _ _ _ E) as [H1 H2].
      replace (pos - pos) with 0 by lia. replace (pos + n - pos) with n by lia.
      cbn [skipn]. repeat split; auto; try lia. intros Hn. specialize (H2 Hn). lia.
    + apply IH in H. destruct H as (H1 & H2 & H3 & H4 & H5). cbn [List.length].
      repeat split; auto; try lia.
      replace (a - pos) with (S (a - S pos)) by lia. exact H5.
Qed.

Lemma chars_length (t : string) : List.length (chars_of t) = String.length t.
Proof. induction t as [|c t IH]; cbn; [reflexivity | now rewrite <- IH]. Qed.

(** The successive matches of a pattern that cannot match the empty text. *)
Lemma finditer_from_spans (ic : bool) (r : re) (whole : list ascii) :
  nullable r = false ->
  forall fuel s pos,
    s = skipn pos whole -> pos <= List.length whole ->
    spans_ordered pos (List.length whole) (finditer_from fuel ic r whole s pos)
    /\ Forall (fun m => group0 m = slice whole (m_start m) (m_end m)
                        /\ match_here ic r (skipn (m_start m) whole)
                           = Some (m_end m - m_start m))
              (finditer_from fuel ic r whole s pos).
Proof.
  intros Hn. induction fuel as [|fuel IH]; intros s pos Hs Hpos; cbn [finditer_from].
  - split; [exact I | constructor].
  - destruct (search_from ic r s pos) as [[a b]|] eqn:E; [|split; [exact I | constructor]].
    apply search_from_bounds in E. destruct E as (H1 & H2 & H3 & H4 & H5).
    specialize (H4 Hn).
    assert (Hlen : pos + List.length s = List.length whole).
    { subst s. rewrite length_skipn. lia. }
    assert (Hne : Nat.eqb b a = false) by (apply Nat.eqb_neq; lia).
    rewrite Hne.
    assert (Hlt : Nat.ltb (List.length whole) b = false) by (apply Nat.ltb_ge; lia).
    rewrite Hlt.
    assert (Hs' : skipn (b - pos) s = skipn b whole).
    { subst s. rewrite skipn_skipn. f_equal. lia. }
    destruct (IH (skipn (b - pos) s) b Hs' ltac:(lia)) as [IH1 IH2].
    split.
    + cbn [spans_ordered m_start m_end]. repeat split; try lia. exact IH1.
    + constructor; [|exact IH2]. cbn [group0 m_start m_end]. split; [reflexivity|].
      subst s. rewrite skipn_skipn in H5. replace (a - pos + pos) with a in H5 by lia.
      exact H5.
Qed.

Lemma re_finditer_spans (ic : bool) (pattern text : string) :
  nullable (compile pattern) = false ->
  spans_ordered 0 (String.length text) (re_finditer ic pattern text)
  /\ Forall (fun m => group0 m = slice (chars_of text) (m_start m) (m_end m))
            (re_finditer ic pattern text).
Proof.
  intros Hn. unfold re_finditer.
  destruct (@finditer_from_spans ic (compile pattern) (chars_of text) Hn
              (S (List.length (chars_of text))) (chars_of text) 0 eq_refl ltac:(lia))
    as [H1 H2].
  split; [rewrite <- chars_length; exact H1|].
  eapply Forall_impl; [|exact H2]. cbn. tauto.
Qed.

Lemma spans_ordered_in (lo hi : nat) (l : list rmatch) (m : rmatch) :
  spans_ordered lo hi l -> In m l -> lo <= m_start m /\ m_start m < m_end m /\ m_end m <= hi.
Proof.
  revert lo. induction l as [|x l IH]; intros lo H Hin; [destruct Hin|].
  cbn in H. destruct H as (H1 & H2 & H3 & H4). destruct Hin as [-> | Hin]; [lia|].
  specialize (IH _ H4 Hin). lia.
Qed.

Lemma extractor_pattern_not_nullable (kind : string) (pats : list string) (p : string) :
  In (kind, pats) _load_entity_extractors -> In p pats ->
  nullable (compile p) = false.
Proof.
  intros H1 H2. pose proof extractors_not_nullable as H.
  rewrite forallb_forall in H. apply negb_true_iff, H.
  apply in_flat_map. exists (kind, pats). split; assumption.
Qed.

Lemma extract_entities_flat (text : string) :
  _extract_entities text
  = flat_map (fun '(kind, pats) =>
                flat_map (fun p => map (entity_of kind) (re_finditer true p text)) pats)
             _load_entity_extractors.
Proof. reflexivity. Qed.

End SpanFacts.

Module CaseFacts.

Lemma lower_char_idem (c : ascii) : lower_char (lower_char c) = lower_char c.
Proof. destruct c as [[] [] [] [] [] [] [] []]; vm_compute; reflexivity. Qed.

Lemma isspace_lower (c : ascii) : isspace (lower_char c) = isspace c.
Proof. destruct c as [[] [] [] [] [] [] [] []]; vm_compute; reflexivity. Qed.

(** Without regard to case, a character and its lower-case form match the
    same literals and sets. *)
Lemma cls_match_case (neg : bool) (items : list citem) (c1 c2 : ascii) :
  lower_char c1 = lower_char c2 ->
  cls_match true neg items c1 = cls_match true neg items c2.
Proof. unfold cls_match. now intros ->. Qed.

Lemma same_case_length (s1 s2 : list ascii) :
  map lower_char s1 = map lower_char s2 -> List.length s1 = List.length s2.
Proof. intros H. apply (f_equal (@List.length ascii)) in H. now rewrite !length_map in H. Qed.

Lemma mtch_case (r : re) :
  forall s1 s2 k1 k2,
    map lower_char s1 = map lower_char s2 ->
    (forall t1 t2, map lower_char t1 = map lower_char t2 -> len (k1 t1) = len (k2 t2)) ->
    len (mtch true r s1 k1) = len (mtch true r s2 k2).
Proof.
  induction r as [| neg items | r1 IH1 r2 IH2 | r1 IH1 r2 IH2 | lo hi r1 IH1];
    intros s1 s2 k1 k2 Hs Hk; cbn [mtch].
  - now apply Hk.
  - destruct s1 as [|c1 s1], s2 as [|c2 s2]; try discriminate Hs; [reflexivity|].
    cbn [map] in Hs. injection Hs as Hc Hs.
    rewrite (cls_match_case neg items _ _ Hc).
    destruct (cls_match true neg items c2); [now apply Hk | reflexivity].
  - apply IH1; [assumption|]. intros t1 t2 Ht. now apply IH2.
  - pose proof (IH1 s1 s2 k1 k2 Hs Hk) as H1.
    destruct (mtch true r1 s1 k1), (mtch true r1 s2 k2); try discriminate H1.
    + exact H1.
    + now apply IH2.
  - rewrite (same_case_length _ _ Hs).
    generalize (match hi with Some h => h | None => List.length s2 end) as budget.
    intros budget. revert lo s1 s2 Hs.
    induction budget as [|b IHb]; intros need s1 s2 Hs.
    + destruct need; [now apply Hk | reflexivity].
    + match goal with
      | |- len (match ?a with _ => _ end) = len (match ?b with _ => _ end) =>
          assert (H1 : len a = len b)
      end.
      { apply IH1; [assumption|]. intros t1 t2 Ht. now apply IHb. }
      match type of H1 with
      | len ?a = len ?b => destruct a, b; try discriminate H1
      end.
      * exact H1.
      * destruct need; [now apply Hk | reflexivity].
Qed.

Lemma match_here_case (r : re) (s1 s2 : list ascii) :
  map lower_char s1 = map lower_char s2 ->
  match_here true r s1 = match_here true r s2.
Proof.
  intros Hs. unfold match_here.
  pose proof (@mtch_case r s1 s2 (fun rest => Some rest) (fun rest => Some rest) Hs) as H.
  rewrite (same_case_length _ _ Hs).
  destruct (mtch true r s1 _), (mtch true r s2 _); cbn in H.
  - specialize (H ltac:(intros t1 t2 Ht; cbn; f_equal; now apply same_case_length)).
    injection H as ->. reflexivity.
  - specialize (H ltac:(intros t1 t2 Ht; cbn; f_equal; now apply same_case_length)).
    discriminate H.
  - specialize (H ltac:(intros t1 t2 Ht; cbn; f_equal; now apply same_case_length)).
    discriminate H.
  - reflexivity.
Qed.

Lemma search_from_case (r : re) :
  forall s1 s2 pos,
    map lower_char s1 = map lower_char s2 ->
    search_from true r s1 pos = search_from true r s2 pos.
Proof.
  induction s1 as [|c1 s1 IH]; intros [|c2 s2] pos Hs; try discriminate Hs;
    [reflexivity|].
  cbn [search_from]. rewrite (match_here_case r _ _ Hs).
  destruct (match_here true r (c2 :: s2)); [reflexivity|].
  cbn [map] in Hs. injection Hs as _ Hs. now apply IH.
Qed.

Lemma skipn_case (n : nat) (s1 s2 : list ascii) :
  map lower_char s1 = map lower_char s2 ->
  map lower_char (skipn n s1) = map lower_char (skipn n s2).
Proof. intros H. now rewrite <- !skipn_map, H. Qed.

Lemma lower_str_of (l : list ascii) : lower (str_of l) = str_of (map lower_char l).
Proof. unfold lower, chars_of, str_of. now rewrite list_ascii_of_string_of_list_ascii. Qed.

Lemma lower_eq_chars (t1 t2 : string) :
  lower t1 = lower t2 -> map lower_char (chars_of t1) = map lower_char (chars_of t2).
Proof.
  unfold lower, str_of. intros H.
  apply (f_equal list_ascii_of_string) in H.
  now rewrite !list_ascii_of_string_of_list_ascii in H.
Qed.

Lemma slice_case (w1 w2 : list ascii) (a b : nat) :
  map lower_char w1 = map lower_char w2 ->
  lower (slice w1 a b) = lower (slice w2 a b).
Proof.
  intros H. unfold slice. rewrite !lower_str_of. f_equal.
  now rewrite <- !firstn_map, <- !skipn_map, H.
Qed.

Lemma lstrip_lower (l : list ascii) : lstrip (map lower_char l) = map lower_char (lstrip l).
Proof.
  induction l as [|c l IH]; [reflexivity|]. cbn. rewrite isspace_lower.
  destruct (isspace c); [exact IH | reflexivity].
Qed.

Lemma rstrip_lower (l : list ascii) : rstrip (map lower_char l) = map lower_char (rstrip l).
Proof. unfold rstrip. now rewrite <- map_rev, lstrip_lower, map_rev. Qed.

(** Stripping and lower-casing commute. *)
Lemma strip_lower (t : string) : strip (lower t) = lower (strip t).
Proof.
  unfold strip. rewrite lower_str_of. unfold lower at 1, chars_of, str_of.
  rewrite list_ascii_of_string_of_list_ascii. fold (chars_of t).
  now rewrite lstrip_lower, rstrip_lower.
Qed.

Lemma strip_case (g1 g2 : string) :
  lower g1 = lower g2 -> lower (strip g1) = lower (strip g2).
Proof. intros H. now rewrite <- !strip_lower, H. Qed.

Lemma finditer_from_case (r : re) (w1 w2 : list ascii) :
  map lower_char w1 = map lower_char w2 ->
  forall fuel s1 s2 pos,
    map lower_char s1 = map lower_char s2 ->
    Forall2 same_match (finditer_from fuel true r w1 s1 pos)
            (finditer_from fuel true r w2 s2 pos).
Proof.
  intros Hw. induction fuel as [|fuel IH]; intros s1 s2 pos Hs; cbn [finditer_from];
    [constructor|].
  rewrite (search_from_case r _ _ pos Hs).
  destruct (search_from true r s2 pos) as [[a b]|]; [|constructor].
  constructor.
  - repeat split. cbn [group0]. now apply slice_case.
  - rewrite (same_case_length _ _ Hw).
    destruct (Nat.ltb _ _); [constructor|]. apply IH. now apply skipn_case.
Qed.

Lemma re_finditer_case (p t1 t2 : string) :
  lower t1 = lower t2 ->
  Forall2 same_match (re_finditer true p t1) (re_finditer true p t2).
Proof.
  intros H. apply lower_eq_chars in H. unfold re_finditer.
  rewrite (same_case_length _ _ H). now apply finditer_from_case.
Qed.

Lemma map_span_case (kind : string) (l1 l2 : list rmatch) :
  Forall2 same_match l1 l2 ->
  map span (map (entity_of kind) l1) = map span (map (entity_of kind) l2).
Proof.
  induction 1 as [|m1 m2 l1 l2 (H1 & H2 & H3) _ IH]; [reflexivity|].
  cbn [map]. rewrite IH. f_equal. unfold span, entity_of.
  cbn [e_type e_value start_pos end_pos].
  now rewrite H1, H2, (strip_case _ _ H3).
Qed.

Lemma extract_entities_case (t1 t2 : string) :
  lower t1 = lower t2 ->
  map span (_extract_entities t1) = map span (_extract_entities t2).
Proof.
  intros H. rewrite !SpanFacts.extract_entities_flat.
  induction _load_entity_extractors as [|[kind pats] tbl IH]; [reflexivity|].
  cbn [flat_map]. rewrite !map_app, IH. f_equal.
  clear IH. induction pats as [|p pats IHp]; [reflexivity|].
  cbn [flat_map]. rewrite !map_app, IHp. f_equal.
  apply map_span_case. now apply re_finditer_case.
Qed.

Lemma lower_idem (t : string) : lower (lower t) = lower t.
Proof.
  unfold lower at 1 2. unfold chars_of, str_of.
  rewrite list_ascii_of_string_of_list_ascii, map_map. unfold lower, str_of, chars_of.
  f_equal. apply map_ext. apply lower_char_idem.
Qed.

Lemma same_case_map (s1 s2 : list ascii) :
  same_case s1 s2 = true <-> map lower_char s1 = map lower_char s2.
Proof.
  revert s2. induction s1 as [|c1 s1 IH]; intros [|c2 s2]; cbn [same_case map];
    try (split; [discriminate | discriminate]); [tauto|].
  rewrite andb_true_iff, Ascii.eqb_eq, IH. split.
  - intros [-> ->]. reflexivity.
  - intros H. injection H as H1 H2. now split.
Qed.

Lemma case_variant_lower (t1 t2 : string) :
  case_variant t1 t2 = true <-> lower t1 = lower t2.
Proof.
  unfold case_variant. rewrite same_case_map. split.
  - intros H. unfold lower. now rewrite H.
  - apply lower_eq_chars.
Qed.

Lemma span_same_entity (l1 l2 : list Entity) :
  map span l1 = map span l2 -> Forall2 same_entity l1 l2.
Proof.
  revert l2. induction l1 as [|e1 l1 IH]; intros [|e2 l2] H; try discriminate H;
    [constructor|].
  cbn [map] in H. unfold span at 1 2 in H. injection H as Hk Hs He Hv Hl.
  constructor; [|now apply IH].
  repeat split; try assumption. now apply case_variant_lower.
Qed.

End CaseFacts.
Import SpanFacts CaseFacts.

(** X1: changing the case of characters of a text, position by position,
    changes nothing but the case of what is found: the two texts get the
    same type, confidence and action, and entities of the same kinds at the
    same offsets, whose values differ in case only. *)
Theorem recognition_ignores_case (t1 t2 : string) :
  case_variant t1 t2 = true ->
  exists i1 i2,
    recognize_intent t1 = Ok i1 /\ recognize_intent t2 = Ok i2
    /\ verdict i1 = verdict i2
    /\ Forall2 same_entity (entities i1) (entities i2).
Proof.
  intros H. apply case_variant_lower in H. unfold recognize_intent. rewrite H.
  destruct (classify (strip (lower t2))) as [b|e] eqn:E.
  - cbn [bind]. do 2 eexists. split; [reflexivity|]. split; [reflexivity|].
    split; [reflexivity|]. cbn [entities].
    apply span_same_entity. now apply extract_entities_case.
  - destruct (classify_cases (strip (lower t2))) as (b & Eb & _). congruence.
Qed.

Lemma recognition_ignores_case_witness :
  case_variant "Remind ME to Call Mom" "remind me to call mom" = true
  /\ exists i1 i2,
      recognize_intent "Remind ME to Call Mom" = Ok i1
      /\ recognize_intent "remind me to call mom" = Ok i2
      /\ verdict i1 = verdict i2
      /\ Forall2 same_entity (entities i1) (entities i2).
Proof.
  split; [reflexivity|].
  apply (@recognition_ignores_case "Remind ME to Call Mom" "remind me to call mom").
  reflexivity.
Defined.

Module TableFacts.

Lemma candidate_of_nil (t : string) (e : IntentType * pattern_group * string) :
  In e catalog ->
  (candidate_of t e = []
   <-> match re_search false (snd e) t with Some _ => false | None => true end = true).
Proof.
  destruct e as [[it g] p]. intros Hin. unfold candidate_of. cbn [snd].
  destruct (re_search false p t) as [m|] eqn:Em; [|tauto].
  split; [|discriminate]. intros H.
  destruct t as [|a t].
  - pose proof empty_text_unmatched as He. rewrite forallb_forall in He.
    specialize (He _ Hin). cbn beta iota in He. rewrite Em in He. discriminate He.
  - assert (Ht : String a t <> EmptyString) by discriminate.
    destruct (@_calculate_confidence_range m (String a t) p Ht) as (c & E & _).
    rewrite E in H. discriminate H.
Qed.

Lemma candidates_nil (t : string) : candidates t = [] <-> matches_any t = false.
Proof.
  unfold candidates, matches_any.
  assert (Hsub : forall e, In e catalog -> In e catalog) by auto.
  revert Hsub. generalize catalog at 1 3 4.
  induction l as [|e l IH]; intros Hsub; cbn [flat_map existsb]; [tauto|].
  assert (He : In e catalog) by (apply Hsub; now left).
  assert (Hl : forall x, In x l -> In x catalog) by (intros x Hx; apply Hsub; now right).
  specialize (IH Hl). pose proof (@candidate_of_nil t e He) as Hc.
  destruct e as [[it g] p]. cbn [snd] in Hc.
  rewrite orb_false_iff. split.
  - intros H. apply app_eq_nil in H. destruct H as [H1 H2].
    apply Hc in H1. apply IH in H2. split; [|assumption].
    destruct (re_search false p t); [discriminate | reflexivity].
  - intros [H1 H2]. apply IH in H2. rewrite H2, app_nil_r. apply Hc.
    destruct (re_search false p t); [discriminate | reflexivity].
Qed.

Lemma catalog_groups (it : IntentType) (g : pattern_group) (p : string) :
  In (it, g, p) catalog <->
  exists groups, In (it, groups) _load_patterns /\ In g groups /\ In p (patterns g).
Proof.
  unfold catalog. rewrite in_flat_map. split.
  - intros ([it' groups] & H1 & H2). rewrite in_flat_map in H2.
    destruct H2 as (g' & H2 & H3). rewrite in_map_iff in H3.
    destruct H3 as (p' & H3 & H4). injection H3 as -> -> ->. eauto.
  - intros (groups & H1 & H2 & H3). exists (it, groups). split; [assumption|].
    rewrite in_flat_map. exists g. split; [assumption|]. now apply in_map.
Qed.

Lemma candidate_origin (t : string) (c : best) :
  In c (candidates t) ->
  exists g p, In (best_intent c, g, p) catalog
              /\ best_action c = _extract_action t (actions g).
Proof.
  unfold candidates. rewrite in_flat_map. intros ([[it g] p] & Hin & Hc).
  unfold candidate_of in Hc.
  destruct (re_search false p t); [|destruct Hc].
  destruct (_calculate_confidence _ t p); [|destruct Hc].
  destruct Hc as [<- | []]. cbn. exists g, p. split; [assumption | reflexivity].
Qed.

Lemma catalog_actions_not_empty :
  forallb (fun '(_, g, _) => match actions g with [] => false | _ => true end) catalog = true.
Proof. vm_compute. reflexivity. Qed.

End TableFacts.
Import TableFacts.

(** X2: a text is given a type of the catalog exactly when some pattern
    matches its normalized form, whatever chat indicators it holds; a text no
    pattern matches is GeneralChat if it holds an indicator and Unknown if
    not. *)
Theorem classification_by_matches (text : string) :
  let t := strip (lower text) in
  exists i,
    recognize_intent text = Ok i
    /\ ((matches_any t = true /\ catalog_type (i_type i) = true)
        \/ (matches_any t = false
            /\ i_type i = if _is_general_chat t then GENERAL_CHAT else UNKNOWN)).
Proof.
  intros t. unfold recognize_intent. fold t. rewrite classify_pick. cbn [bind].
  eexists. split; [reflexivity|]. cbn [i_type].
  destruct (candidates t) as [|c l] eqn:E.
  - right. apply candidates_nil in E. split; [exact E|].
    cbn [fold_left best_intent best_init IntentType_eqb].
    now destruct (_is_general_chat t).
  - left. split.
    + destruct (matches_any t) eqn:Em; [reflexivity|].
      apply candidates_nil in Em. congruence.
    + rewrite <- E.
      assert (H : earliest_greatest (fold_left pick (candidates t) best_init) (candidates t)).
      { apply pick_earliest_greatest; [|rewrite E; discriminate].
        rewrite Forall_forall. intros x Hx. now apply candidates_range in Hx. }
      apply earliest_greatest_in, candidates_range in H. destruct H as (Ht & _).
      now rewrite (catalog_type_not_unknown _ Ht).
Qed.

Lemma _extract_action_cases (text : string) (possible_actions : list string) :
  match _extract_action text possible_actions with
  | Some a => In a possible_actions \/ In a keyword_actions
  | None => possible_actions = []
  end.
Proof.
  unfold _extract_action, keyword_actions.
  destruct (find _ possible_actions) as [a|] eqn:Ef.
  - left. now apply find_some in Ef.
  - repeat match goal with
           | |- context [if ?b then _ else _] => destruct b
           end; cbn; auto 10.
    destruct possible_actions; cbn; auto.
Qed.

(** X3: [_extract_action] returns an action of the vocabulary or one of the
    four keyword actions; it returns none only for an empty vocabulary; and
    when an action of the vocabulary occurs in the text, it returns such an
    action and no keyword action takes its place. *)
Theorem extract_action_domain (text : string) (possible_actions : list string) :
  match _extract_action text possible_actions with
  | Some a => In a possible_actions \/ In a keyword_actions
  | None => possible_actions = []
  end
  /\ (existsb (fun a => contains a text) possible_actions = true ->
      exists a, _extract_action text possible_actions = Some a
                /\ In a possible_actions /\ contains a text = true).
Proof.
  split; [apply _extract_action_cases|].
  unfold _extract_action. intros He.
  destruct (find _ possible_actions) as [a|] eqn:Ef.
  - exists a. apply find_some in Ef. tauto.
  - apply existsb_exists in He. destruct He as (a & Ha & Hc).
    apply (find_none _ _ Ef) in Ha. cbn beta in Ha. congruence.
Qed.

Lemma extract_action_domain_witness :
  existsb (fun a => contains a "weather forecast") ["current"; "forecast"; "conditions"] = true
  /\ exists a,
      _extract_action "weather forecast" ["current"; "forecast"; "conditions"] = Some a
      /\ In a ["current"; "forecast"; "conditions"]
      /\ contains a "weather forecast" = true.
Proof.
  split; [reflexivity|].
  apply (proj2 (extract_action_domain "weather forecast" ["current"; "forecast"; "conditions"])).
  reflexivity.
Defined.

(** X4: a recognized intent of type Unknown or GeneralChat has no action;
    one of a catalog type always has one, resolved against the vocabulary of
    a rule group of that type: an action of that vocabulary or one of the four
    keyword actions. *)
Theorem recognized_action_domain (text : string) :
  exists i,
    recognize_intent text = Ok i
    /\ ((catalog_type (i_type i) = false /\ action i = None)
        \/ (exists groups group a,
               In (i_type i, groups) _load_patterns /\ In group groups
               /\ action i = _extract_action (strip (lower text)) (actions group)
               /\ action i = Some a
               /\ (In a (actions group) \/ In a keyword_actions))).
Proof.
  set (t := strip (lower text)).
  unfold recognize_intent. fold t. rewrite classify_pick. cbn [bind].
  eexists. split; [reflexivity|]. cbn [i_type action].
  destruct (candidates t) as [|c l] eqn:E.
  - left. cbn [fold_left best_intent best_init IntentType_eqb].
    destruct (_is_general_chat t); split; reflexivity.
  - right. rewrite <- E.
    assert (H : earliest_greatest (fold_left pick (candidates t) best_init) (candidates t)).
    { apply pick_earliest_greatest; [|rewrite E; discriminate].
      rewrite Forall_forall. intros x Hx. now apply candidates_range in Hx. }
    apply earliest_greatest_in in H. set (b := fold_left pick (candidates t) best_init) in *.
    pose proof (candidates_range _ _ H) as (Ht & _).
    rewrite (catalog_type_not_unknown _ Ht).
    destruct (candidate_origin _ _ H) as (g & p & Hin & Ha).
    pose proof catalog_actions_not_empty as Hne. rewrite forallb_forall in Hne.
    specialize (Hne _ Hin). cbn beta iota in Hne.
    apply catalog_groups in Hin. destruct Hin as (groups & H1 & H2 & _).
    pose proof (_extract_action_cases t (actions g)) as Hd.
    rewrite <- Ha in Hd.
    destruct (best_action b) as [a|] eqn:Eb.
    + exists groups, g, a. repeat split; auto.
    + rewrite Hd in Hne. discriminate Hne.
Qed.

(** X5: every extracted entity has one of the five kinds of the table and
    the confidence 0.8; its span is not empty and lies inside the text; its
    value is the text between its offsets, stripped. *)
Theorem extracted_entity_invariants (text : string) (e : Entity) :
  In e (_extract_entities text) ->
  In (e_type e) kinds
  /\ e_confidence e = f0_8
  /\ start_pos e < end_pos e
  /\ end_pos e <= String.length text
  /\ e_value e = strip (slice (chars_of text) (start_pos e) (end_pos e)).
Proof.
  rewrite extract_entities_flat, in_flat_map. intros ([kind pats] & Hk & H).
  rewrite in_flat_map in H. destruct H as (p & Hp & H).
  rewrite in_map_iff in H. destruct H as (m & <- & Hm).
  pose proof (@extractor_pattern_not_nullable kind pats p Hk Hp) as Hn.
  destruct (@re_finditer_spans true p text Hn) as [H1 H2].
  pose proof (@spans_ordered_in _ _ _ m H1 Hm) as (_ & H3 & H4).
  rewrite Forall_forall in H2. specialize (H2 _ Hm).
  cbn [entity_of e_type e_value e_confidence start_pos end_pos].
  repeat split; try assumption.
  - unfold kinds. apply in_map_iff. now exists (kind, pats).
  - now rewrite H2.
Qed.

Lemma extracted_entity_invariants_witness :
  In (entity_of "person" {| m_start := 10; m_end := 21; group0 := "to call mom" |})
     (_extract_entities "Remind me to call mom")
  /\ 10 < 21 <= String.length "Remind me to call mom".
Proof.
  assert (H : In (entity_of "person"
                    {| m_start := 10; m_end := 21; group0 := "to call mom" |})
                 (_extract_entities "Remind me to call mom"))
    by (vm_compute; left; reflexivity).
  split; [exact H|].
  destruct (@extracted_entity_invariants "Remind me to call mom" _ H)
    as (_ & _ & H1 & H2 & _).
  split; [exact H1 | exact H2].
Defined.

(** X6: the entities come kind by kind and pattern by pattern in table
    order, and the matches of one pattern are in text order and do not
    overlap. *)
Theorem entities_per_pattern (text : string) :
  _extract_entities text
  = flat_map (fun '(kind, pats) =>
                flat_map (fun p => map (entity_of kind) (re_finditer true p text)) pats)
             _load_entity_extractors
  /\ Forall (fun '(kind, pats) =>
               Forall (fun p => spans_ordered 0 (String.length text)
                                  (re_finditer true p text))
                      pats)
            _load_entity_extractors.
Proof.
  split; [reflexivity|].
  rewrite Forall_forall. intros [kind pats] Hk.
  rewrite Forall_forall. intros p Hp.
  apply re_finditer_spans. eapply extractor_pattern_not_nullable; eassumption.
Qed.

(** X7: a requirement is always a kind the extractor can produce; a pair
    that is no key of the table (an intent without action, the types Unknown
    and GeneralChat) requires nothing. *)
Theorem requirements_are_extractable (t : IntentType) (a : option string) :
  Forall (fun k => In k kinds) (get_required_entities t a)
  /\ get_required_entities t None = []
  /\ get_required_entities UNKNOWN a = []
  /\ get_required_entities GENERAL_CHAT a = [].
Proof.
  split; [|split; [now destruct t | split; reflexivity]].
  unfold get_required_entities, dict_get.
  assert (K : forall k, In k kinds <->
                        k = "datetime" \/ k = "location" \/ k = "person"
                        \/ k = "duration" \/ k = "topic").
  { intros k. unfold kinds. cbn. intuition congruence. }
  destruct t, a as [x|]; cbn [lookup requirements IntentType_eqb action_eqb];
    split_keys;
    repeat (apply Forall_cons; [apply K; auto 10|]); apply Forall_nil.
Qed.

(** X8: the actions of the keyword fallback are no keys of the Weather, News
    and Search requirements: an intent of these types with such an action
    never waits for an entity. *)
Theorem keyword_action_requires_nothing (t : IntentType) (a : string)
        (ents : list Entity) :
  t = WEATHER \/ t = NEWS \/ t = SEARCH ->
  In a keyword_actions ->
  get_required_entities t (Some a) = []
  /\ _check_missing_entities ents (get_required_entities t (Some a)) = [].
Proof.
  intros Ht Ha.
  assert (E : get_required_entities t (Some a) = []).
  { cbn in Ha. destruct Ht as [-> | [-> | ->]];
      destruct Ha as [<- | [<- | [<- | [<- | []]]]]; reflexivity. }
  rewrite E. split; reflexivity.
Qed.

Lemma keyword_action_requires_nothing_witness :
  (WEATHER = WEATHER \/ WEATHER = NEWS \/ WEATHER = SEARCH)
  /\ In "read" keyword_actions
  /\ get_required_entities WEATHER (Some "read") = [].
Proof.
  assert (H1 : WEATHER = WEATHER \/ WEATHER = NEWS \/ WEATHER = SEARCH) by now left.
  assert (H2 : In "read" keyword_actions) by (cbn; tauto).
  split; [exact H1|]. split; [exact H2|].
  exact (proj1 (@keyword_action_requires_nothing WEATHER "read" [] H1 H2)).
Defined.

(** X9: for every type but News, each kind the requirement table can ask
    for has a question template, so a follow-up for one missing kind is that
    template and never the generic sentence. *)
Theorem required_kinds_have_templates (t : IntentType) (a : option string) (k : string) :
  t <> NEWS ->
  In k (get_required_entities t a) ->
  exists q, template t k = Some q
            /\ _generate_followup_question t a [k] = q
            /\ phrase t k = q.
Proof.
  intros Ht Hin.
  assert (H : exists q, template t k = Some q).
  { revert Hin. unfold get_required_entities, dict_get.
    destruct t, a as [x|]; try congruence;
      cbn [lookup requirements IntentType_eqb action_eqb];
      split_keys; cbn [In]; intros H;
      repeat (destruct H as [<- | H]; [eexists; reflexivity|]); destruct H. }
  destruct H as (q & E). exists q. split; [exact E|]. split.
  - unfold _generate_followup_question, dict_get. unfold template in E.
    destruct (lookup IntentType_eqb t questions) as [qs|]; [|discriminate E].
    now rewrite E.
  - unfold phrase. now rewrite E.
Qed.

Lemma required_kinds_have_templates_witness :
  REMINDER <> NEWS
  /\ In "topic" (get_required_entities REMINDER (Some "delete"))
  /\ _generate_followup_question REMINDER (Some "delete") ["topic"]
     = "What would you like me to remind you about?".
Proof.
  assert (H1 : REMINDER <> NEWS) by discriminate.
  assert (H2 : In "topic" (get_required_entities REMINDER (Some "delete")))
    by (cbn; tauto).
  split; [exact H1|]. split; [exact H2|].
  destruct (@required_kinds_have_templates REMINDER (Some "delete") "topic" H1 H2)
    as (q & E & <- & _).
  reflexivity.
Defined.

(** X10: the registry matters only through the handler of the recognized
    type: two registries that agree on it give the same response. *)
Theorem routing_by_type (Context Data : Type)
        (handlers handlers' : Registry Context Data)
        (request : AssistantRequest Context) (i : Intent) :
  recognize_intent (text request) = Ok i ->
  lookup IntentType_eqb (i_type i) handlers = lookup IntentType_eqb (i_type i) handlers' ->
  process_request handlers request = process_request handlers' request.
Proof.
  intros E H.
  rewrite (process_request_dispatch handlers request E),
          (process_request_dispatch handlers' request E).
  unfold dispatch. now rewrite H.
Qed.

Lemma routing_by_type_witness :
  recognize_intent (text (sample_request "current weather forecast")) = Ok forecast_intent
  /\ process_request sample_registry (sample_request "current weather forecast")
     = process_request [(WEATHER, sample_handler)]
                       (sample_request "current weather forecast").
Proof.
  assert (E : recognize_intent (text (sample_request "current weather forecast"))
              = Ok forecast_intent) by (vm_compute; reflexivity).
  split; [exact E|].
  apply (@routing_by_type unit unit sample_registry [(WEATHER, sample_handler)]
           (sample_request "current weather forecast") forecast_intent E).
  reflexivity.
Defined.

(** X11: when the text is no assistant task, or a required kind is missing,
    no handler is run: the response is the same for all registries that agree
    on whether the type has a handler, whatever the handlers do. *)
Theorem handler_not_consulted (Context Data : Type)
        (handlers handlers' : Registry Context Data)
        (request : AssistantRequest Context) (i : Intent) :
  recognize_intent (text request) = Ok i ->
  is_task i = false \/ missing_of i <> [] ->
  registered handlers (i_type i) = registered handlers' (i_type i) ->
  process_request handlers request = process_request handlers' request.
Proof.
  intros E H R.
  rewrite (process_request_dispatch handlers request E),
          (process_request_dispatch handlers' request E).
  unfold dispatch, registered, missing_of in *.
  destruct (is_task i); cbn [negb]; [|reflexivity].
  destruct H as [H | H]; [discriminate H|].
  destruct (lookup IntentType_eqb (i_type i) handlers),
           (lookup IntentType_eqb (i_type i) handlers'); try discriminate R;
    [|reflexivity].
  cbv zeta. destruct (_check_missing_entities _ _); [congruence | reflexivity].
Qed.

Lemma handler_not_consulted_witness :
  recognize_intent (text (sample_request "Remind me to call mom")) = Ok reminder_intent
  /\ missing_of reminder_intent = ["datetime"; "topic"]
  /\ process_request (reference_registry sample_handler sample_handler sample_handler)
                     (sample_request "Remind me to call mom")
     = process_request sample_registry (sample_request "Remind me to call mom").
Proof.
  assert (E : recognize_intent (text (sample_request "Remind me to call mom"))
              = Ok reminder_intent) by (vm_compute; reflexivity).
  assert (M : missing_of reminder_intent = ["datetime"; "topic"]) by reflexivity.
  split; [exact E|]. split; [exact M|].
  apply (@handler_not_consulted unit unit
           (reference_registry sample_handler sample_handler sample_handler)
           sample_registry (sample_request "Remind me to call mom") reminder_intent E).
  - right. rewrite M. discriminate.
  - reflexivity.
Defined.

Lemma value_not_error (t : IntentType) : value t <> "error".
Proof. destruct t; discriminate. Qed.

(** X12: a response that [process_request] returns either reports an
    [Exception] raised in the [try] block, with the type "error", or is the
    response of the [try] block and carries the value of the recognized type
    and the recognized confidence unchanged; a response that is not an
    assistant task is a success without error, data or follow-up; and when
    no response is returned, an exception outside [Exception] left the [try]
    block. *)
Theorem response_passes_intent (Context Data : Type)
        (handlers : Registry Context Data) (request : AssistantRequest Context) :
  exists i,
    recognize_intent (text request) = Ok i
    /\ match process_request handlers request with
       | Returns r =>
           ((exists e, process_request_try handlers request = Raises (Exception e)
                       /\ r = error_response e)
            \/ (process_request_try handlers request = Returns r
                /\ intent_type r = value (i_type i)
                /\ intent_type r <> "error"
                /\ confidence r = i_confidence i))
           /\ (is_assistant_task r = true
               \/ (success r = true /\ error r = None /\ data r = None
                   /\ requires_followup r = false /\ followup_question r = None))
       | Raises b =>
           process_request_try handlers request = Raises b
           /\ forall e, b <> Exception e
       end.
Proof.
  destruct (recognize_intent_cases (text request)) as (i & E & _).
  exists i. split; [exact E|].
  unfold process_request. rewrite (process_request_try_dispatch handlers request E).
  unfold dispatch.
  destruct (is_task i); cbn [negb];
    [|split; [right; repeat split; apply value_not_error | right; repeat split]].
  destruct (lookup IntentType_eqb (i_type i) handlers) as [h|];
    [|split; [right; repeat split; apply value_not_error | left; reflexivity]].
  cbv zeta. destruct (_check_missing_entities _ _);
    [|split; [right; repeat split; apply value_not_error | left; reflexivity]].
  destruct (h i (entities i) (context request)) as [r | [e | c]].
  - split; [right; repeat split; apply value_not_error | left; reflexivity].
  - split; [left; exists e; split; reflexivity | left; reflexivity].
  - split; [reflexivity | discriminate].
Qed.

Module ExactFacts.
Local Open Scope Z_scope.

(** A length divided by itself is the float one. *)
Lemma fdiv_self (n : nat) : n <> 0%nat -> fdiv (of_nat n) (of_nat n) = f1_0.
Proof.
  intros Hn. destruct n as [|n]; [congruence|]. cbn [of_nat].
  set (p := Pos.of_nat (S n)).
  unfold fdiv, SFdiv. cbn [xorb]. unfold SFdiv_core_binary.
  replace (Zdigits2 (Z.pos p) + 0 - (Zdigits2 (Z.pos p) + 0)) with 0 by lia.
  change (Z.min (fexp prec emax 0) (0 - 0)) with (-53).
  change (0 - 0 - -53) with 53.
  cbv iota. rewrite Z.shiftl_mul_pow2 by lia.
  assert (E : Z.div_eucl (Z.pos p * 2 ^ 53) (Z.pos p) = (2 ^ 53, 0)).
  { pose proof (Z.div_mul (2 ^ 53) (Z.pos p) ltac:(lia)) as Hq.
    pose proof (Z.mod_mul (2 ^ 53) (Z.pos p) ltac:(lia)) as Hr.
    rewrite (Z.mul_comm (Z.pos p)).
    unfold Z.div, Z.modulo in Hq, Hr.
    destruct (Z.div_eucl (2 ^ 53 * Z.pos p) (Z.pos p)) as [q r]. now subst. }
  rewrite E.
  assert (L : new_location (Z.pos p) 0 = loc_Exact).
  { unfold new_location, new_location_even, new_location_odd.
    destruct (Z.even (Z.pos p)); reflexivity. }
  rewrite L. vm_compute. reflexivity.
Qed.

End ExactFacts.
Import ExactFacts.

(** A match that is the whole text has the confidence 1.0 exactly. *)
Lemma whole_text_match_is_certain (m : rmatch) (text pattern : string) :
  text <> EmptyString ->
  group0 m = text ->
  _calculate_confidence m text pattern = Ok f1_0.
Proof.
  intros Ht Hg. unfold _calculate_confidence, int_truediv. rewrite Hg, String.eqb_refl.
  destruct (String.length text) as [|n] eqn:El.
  { destruct text; [congruence | discriminate El]. }
  cbn [bind]. change (fdiv (of_nat (S n)) (of_nat (S n)))
    with (fdiv (of_nat (S n)) (of_nat (S n))).
  rewrite (@fdiv_self (S n)) by discriminate.
  vm_compute. reflexivity.
Qed.

Module UpperFacts.
Local Open Scope Z_scope.

Lemma Zdigits2_upper (m : Z) : 0 <= m -> m < 2 ^ Zdigits2 m.
Proof.
  intros H. destruct (Z.eq_dec m 0) as [-> | Hn]; [cbn; lia|].
  apply Zdigits2_bounds. lia.
Qed.

Lemma Zdigits2_le (m k : Z) : 0 <= m -> 0 <= k -> m < 2 ^ k -> Zdigits2 m <= k.
Proof.
  intros Hm Hk H. destruct (Z.eq_dec m 0) as [-> | Hn]; [cbn; lia|].
  assert (Hp : 0 < m) by lia.
  pose proof (Zdigits2_bounds Hp) as [Hd _].
  assert (Hlt : 2 ^ (Zdigits2 m - 1) < 2 ^ k) by lia.
  apply Z.pow_lt_mono_r_iff in Hlt; lia.
Qed.

(** Rounding a number below [M * 2^E] gives a float that is at most
    [M * 2^E]; [mx * 2^ex] is the number truncated, so that the number itself
    is below [(mx + 1) * 2^ex]. *)
Lemma round_aux_upper (mx ex : Z) (lx : location) (E : Z) (M : positive) :
  0 <= mx -> ex <= E -> -1074 <= E <= 971 -> Zpos M < 2 ^ 53 ->
  mx + 1 <= Zpos M * 2 ^ (E - ex) ->
  at_most E M (binary_round_aux prec emax false mx ex lx).
Proof.
  intros Hmx Hex HE HM Hb.
  assert (P53 : 0 < 2 ^ 53) by (apply Z.pow_pos_nonneg; lia).
  assert (Hfexp : forall x, fexp prec emax x = Z.max (x - 53) (-1074)) by reflexivity.
  unfold binary_round_aux, shr_fexp.
  (* first shift *)
  set (d := Zdigits2 mx).
  assert (Hd : d <= 53 + E - ex).
  { apply Zdigits2_le; try lia.
    assert (0 < 2 ^ (E - ex)) by (apply Z.pow_pos_nonneg; lia).
    replace (53 + E - ex) with (53 + (E - ex)) by lia.
    rewrite Z.pow_add_r by lia. nia. }
  set (e1 := fexp prec emax (d + ex)).
  assert (He1 : e1 <= E) by (unfold e1; rewrite Hfexp; lia).
  destruct (shr_spec (shr_record_of_loc mx lx) ex (e1 - ex)) as (r1 & E1 & M1);
    [now rewrite shr_m_of_loc|].
  rewrite E1. rewrite shr_m_of_loc in M1.
  set (n := Z.max (e1 - ex) 0) in *. set (e' := ex + n).
  assert (Hn : 0 <= n) by (unfold n; lia).
  assert (He' : e' <= E) by (unfold e', n; lia).
  assert (Pn : 0 < 2 ^ n) by (apply Z.pow_pos_nonneg; lia).
  set (K := Zpos M * 2 ^ (E - e')).
  assert (PK : 0 < 2 ^ (E - e')) by (apply Z.pow_pos_nonneg; lia).
  assert (HK : Zpos M * 2 ^ (E - ex) = 2 ^ n * K).
  { unfold K. replace (E - ex) with ((E - e') + n) by (unfold e'; lia).
    rewrite Z.pow_add_r by lia. ring. }
  assert (H1 : 0 <= shr_m r1 /\ shr_m r1 + 1 <= K).
  { rewrite M1. split; [apply Z.div_pos; lia|].
    assert (mx / 2 ^ n < K); [|lia].
    apply Z.div_lt_upper_bound; [lia|]. rewrite <- HK. lia. }
  pose proof (rne_bounds (shr_m r1) (loc_of_shr_record r1)) as Hr.
  set (m2 := round_nearest_even (shr_m r1) (loc_of_shr_record r1)) in *.
  (* second shift *)
  set (d2 := Zdigits2 m2).
  assert (HKlt : K < 2 ^ (53 + (E - e'))).
  { unfold K. rewrite Z.pow_add_r by lia. nia. }
  assert (Hd2 : d2 <= 53 + (E - e')) by (apply Zdigits2_le; lia).
  set (e2 := fexp prec emax (d2 + e')).
  assert (He2 : e2 <= E) by (unfold e2; rewrite Hfexp; lia).
  assert (He2' : d2 + e' - 53 <= e2) by (unfold e2; rewrite Hfexp; lia).
  destruct (shr_spec (shr_record_of_loc m2 loc_Exact) e' (e2 - e')) as (r2 & E2 & M2);
    [cbn; lia|].
  rewrite E2. cbn [shr_m shr_record_of_loc] in M2.
  set (n2 := Z.max (e2 - e') 0) in *.
  assert (Hn2 : 0 <= n2) by (unfold n2; lia).
  assert (Pn2 : 0 < 2 ^ n2) by (apply Z.pow_pos_nonneg; lia).
  assert (H3 : 0 <= shr_m r2) by (rewrite M2; apply Z.div_pos; lia).
  assert (H3a : shr_m r2 < 2 ^ 53).
  { rewrite M2. apply Z.div_lt_upper_bound; [lia|].
    pose proof (@Zdigits2_upper m2 ltac:(lia)) as Hu. fold d2 in Hu.
    assert (2 ^ d2 <= 2 ^ (n2 + 53)).
    { apply Z.pow_le_mono_r; [lia|]. unfold n2. lia. }
    rewrite <- Z.pow_add_r by lia. lia. }
  assert (H3b : e' + n2 = E -> shr_m r2 <= Zpos M).
  { intros He. rewrite M2. apply Z.div_le_upper_bound; [lia|].
    replace n2 with (E - e') by lia. fold K. lia. }
  assert (He'' : e' + n2 <= E) by (unfold n2; lia).
  destruct (shr_m r2) as [|q|q] eqn:Eq; [exact I | | lia].
  assert (Hleb : (e' + n2 <=? emax - prec) = true)
    by (apply Z.leb_le; unfold emax, prec; lia).
  rewrite Hleb. cbn [at_most]. split; [lia|].
  destruct (Z.eq_dec (e' + n2) E) as [He | He]; [right | left; lia].
  split; [exact He|]. specialize (H3b He). lia.
Qed.

End UpperFacts.

Module UpperChain.
Import UpperFacts.
Local Open Scope Z_scope.

Lemma of_nat_pos (n : nat) : n <> 0%nat -> of_nat n = S754_finite false (Pos.of_nat n) 0.
Proof. destruct n; [congruence | reflexivity]. Qed.

(** A length divided by a greater one is at most one. *)
Lemma fdiv_below_one (a b : nat) :
  (0 < a < b)%nat -> at_most (-52) 4503599627370496 (fdiv (of_nat a) (of_nat b)).
Proof.
  intros [Ha Hab]. rewrite !of_nat_pos by lia.
  set (pa := Pos.of_nat a). set (pb := Pos.of_nat b).
  assert (Hlt : Zpos pa < Zpos pb).
  { unfold pa, pb. apply Pos2Z.pos_lt_pos. apply Pos2Nat.inj_lt.
    rewrite !Nat2Pos.id by lia. exact Hab. }
  unfold fdiv, SFdiv. cbn [xorb]. unfold SFdiv_core_binary.
  set (d1 := Zdigits2 (Zpos pa)). set (d2 := Zdigits2 (Zpos pb)).
  assert (Hd : d1 <= d2).
  { apply Zdigits2_le; try lia.
    - unfold d2. cbn. lia.
    - pose proof (@Zdigits2_upper (Zpos pb) ltac:(lia)). fold d2 in H. lia. }
  set (e' := Z.min (fexp prec emax (d1 + 0 - (d2 + 0))) (0 - 0)).
  assert (He : -1074 <= e' <= -53).
  { unfold e', fexp, emin, prec, emax. lia. }
  replace (0 - 0 - e') with (- e') by lia.
  destruct (- e') as [|s|s] eqn:Es; try lia.
  rewrite Z.shiftl_mul_pow2 by lia.
  assert (Ps : 0 < 2 ^ Zpos s) by (apply Z.pow_pos_nonneg; lia).
  pose proof (Z.div_pos (Zpos pa * 2 ^ Zpos s) (Zpos pb) ltac:(nia) ltac:(lia)) as Hq0.
  assert (Hq1 : Zpos pa * 2 ^ Zpos s / Zpos pb < 2 ^ Zpos s).
  { apply Z.div_lt_upper_bound; [lia | nia]. }
  unfold Z.div in Hq0, Hq1.
  destruct (Z.div_eucl (Zpos pa * 2 ^ Zpos s) (Zpos pb)) as [q r].
  apply round_aux_upper; [lia | lia | lia | reflexivity |].
  replace (-52 - e') with (Zpos s - 52) by lia.
  change (Zpos 4503599627370496) with (2 ^ 52).
  rewrite <- Z.pow_add_r by lia. replace (52 + (Zpos s - 52)) with (Zpos s) by lia. lia.
Qed.

(** A tenth of a float that is at most one is at most a tenth (up to its
    last bit). *)
Lemma fmul_tenth_upper (y : float) :
  at_most (-52) 4503599627370496 y ->
  at_most (-56) 7205759403792795 (fmul y f0_1).
Proof.
  destruct y as [s | s | | [] m e]; cbn [at_most]; try tauto.
  intros [Hm He]. unfold fmul, f0_1, SFmul. cbn [xorb].
  assert (He' : e <= -52) by (destruct He as [He | [He _]]; lia).
  assert (Hle : Zpos m <= 2 ^ (- e)).
  { destruct He as [He | [-> He]].
    - assert (2 ^ 53 <= 2 ^ (- e)) by (apply Z.pow_le_mono_r; lia). lia.
    - change (2 ^ (- -52)) with (Zpos 4503599627370496).
      now apply Pos2Z.pos_le_pos. }
  clear He.
  assert (P : 0 < 2 ^ (- e)) by (apply Z.pow_pos_nonneg; lia).
  apply round_aux_upper; [lia | lia | lia | reflexivity |].
  replace (-56 - (e + -56)) with (- e) by lia.
  rewrite Pos2Z.inj_mul. nia.
Qed.

Lemma binary_round_upper (s : positive) (ez E : Z) (M : positive) :
  ez <= E -> -1074 <= E <= 971 -> Zpos M < 2 ^ 53 ->
  Zpos s + 1 <= Zpos M * 2 ^ (E - ez) ->
  at_most E M (binary_round prec emax false s ez).
Proof.
  intros Hez HE HM Hb. unfold binary_round.
  set (target := fexp prec emax (Zpos (digits2_pos s) + ez)).
  destruct (shl_align s ez target) as [mz ez'] eqn:Es.
  assert (H : ez' <= ez /\ Zpos mz = Zpos s * 2 ^ (ez - ez')).
  { unfold shl_align in Es. destruct (target - ez) as [|d|d] eqn:Ed.
    - injection Es as <- <-. rewrite Z.sub_diag. cbn. lia.
    - injection Es as <- <-. rewrite Z.sub_diag. cbn. lia.
    - injection Es as <- <-. split; [lia|].
      replace (ez - target) with (Zpos d) by lia.
      change (Pos.iter xO s d) with (Zpower.shift_pos d s).
      rewrite Zpower.shift_pos_correct.
      change (Z.pow_pos 2 d) with (2 ^ Zpos d). ring. }
  destruct H as [H1 H2].
  assert (P : 0 < 2 ^ (ez - ez')) by (apply Z.pow_pos_nonneg; lia).
  apply round_aux_upper; [lia | lia | lia | assumption |].
  replace (E - ez') with ((E - ez) + (ez - ez')) by lia.
  rewrite Z.pow_add_r by lia. rewrite H2. nia.
Qed.

(** [0.8] plus a float that is at most a tenth stays below one. *)
Lemma fadd_base_upper (y : float) :
  at_most (-56) 7205759403792795 y ->
  at_most (-53) 9007199254740991 (fadd f0_8 y).
Proof.
  destruct y as [s | s | | [] mp ep]; cbn [at_most]; try tauto.
  - intros _. cbn. split; [reflexivity|]. right. split; [reflexivity|].
    apply Pos.leb_le. reflexivity.
  - intros [Hm He].
    assert (He2 : ep < -56 \/ (ep = -56 /\ Zpos mp <= 7205759403792795)).
    { destruct He as [He | [He Hmp]]; [left; exact He | right].
      split; [exact He | exact (Pos2Z.pos_le_pos _ _ Hmp)]. }
    clear He. unfold fadd, f0_8, SFadd. cbn [cond_Zopp].
    assert (Hep : ep <= -56) by lia.
    replace (Z.min (-53) ep) with ep by lia.
    pose proof (@shl_align_value 7205759403792794 (-53) ep ltac:(lia)) as Ha.
    pose proof (@shl_align_value mp ep ep ltac:(lia)) as Hb.
    rewrite Z.sub_diag in Hb. change (2 ^ 0) with 1 in Hb. rewrite Z.mul_1_r in Hb.
    set (a := fst (shl_align 7205759403792794 (-53) ep)) in *.
    set (b := fst (shl_align mp ep ep)) in *.
    change (Zpos a + Zpos b) with (Zpos (a + b)). cbn [binary_normalize].
    apply binary_round_upper; [lia | lia | reflexivity |].
    rewrite Pos2Z.inj_add, Ha, Hb.
    set (j := -53 - ep) in *.
    assert (P : 0 < 2 ^ j) by (apply Z.pow_pos_nonneg; lia).
    destruct He2 as [He | [He Hmp]].
    + assert (2 ^ 4 <= 2 ^ j) by (apply Z.pow_le_mono_r; lia).
      change (2 ^ 4) with 16 in *. change (2 ^ 53) with 9007199254740992 in *. nia.
    + replace j with 3 in * by lia. change (2 ^ 3) with 8. lia.
Qed.

Lemma at_most_below_one (x : float) :
  at_most (-53) 9007199254740991 x ->
  flt x f1_0 = true /\ flt f1_0 x = false.
Proof.
  destruct x as [s | s | | [] m e]; cbn [at_most]; try tauto.
  intros [_ He].
  assert (He' : e <= -53) by (destruct He as [He | [He _]]; lia).
  clear He. unfold flt, SFltb, f1_0, SFcompare.
  assert (H1 : (e ?= -52) = Lt) by (apply Z.compare_lt_iff; lia).
  assert (H2 : (-52 ?= e) = Gt) by (apply Z.compare_gt_iff; lia).
  rewrite H1, H2. split; reflexivity.
Qed.

End UpperChain.
Import UpperChain.

(** A match shorter than the text has a confidence below 1.0. *)
Lemma partial_match_below_one (m : rmatch) (text pattern : string) :
  (String.length (group0 m) < String.length text)%nat ->
  exists c, _calculate_confidence m text pattern = Ok c /\ flt c f1_0 = true.
Proof.
  intros Hlen. unfold _calculate_confidence, int_truediv.
  assert (Hne : String.eqb (group0 m) text = false).
  { apply String.eqb_neq. intros E. rewrite E in Hlen. lia. }
  rewrite Hne.
  destruct (String.length text) as [|n] eqn:El; [lia|]. cbn [bind].
  eexists. split; [reflexivity|].
  set (ratio := fdiv _ _).
  assert (Hr : at_most (-52) 4503599627370496 ratio).
  { unfold ratio. destruct (String.length (group0 m)) as [|a] eqn:Ea.
    - exact I.
    - apply fdiv_below_one. lia. }
  apply fmul_tenth_upper, fadd_base_upper, at_most_below_one in Hr.
  destruct Hr as [H1 H2]. unfold py_min. now rewrite H2.
Qed.

Module WholeFacts.

Lemma str_of_length (l : list ascii) : String.length (str_of l) = List.length l.
Proof. unfold str_of. induction l as [|c l IH]; cbn; [reflexivity | now f_equal]. Qed.

Lemma str_of_chars (t : string) : str_of (chars_of t) = t.
Proof. apply string_of_list_ascii_of_string. Qed.

(** The text of a match found by [re_search] is the whole text or shorter. *)
Lemma re_search_group (ic : bool) (pattern text : string) (m : rmatch) :
  re_search ic pattern text = Some m ->
  group0 m = text \/ String.length (group0 m) < String.length text.
Proof.
  unfold re_search.
  destruct (search_from ic (compile pattern) (chars_of text) 0) as [[a b]|] eqn:E;
    [|discriminate].
  intros H. injection H as <-. cbn [group0].
  apply search_from_bounds in E. destruct E as (_ & H1 & H2 & _).
  cbn [Nat.add] in H2.
  unfold slice. rewrite str_of_length, length_firstn, length_skipn.
  rewrite <- (chars_length text).
  destruct (Nat.eq_dec (b - a) (List.length (chars_of text))) as [Heq | Hne];
    [left | right; lia].
  assert (a = 0) by lia. subst a. rewrite Nat.sub_0_r in *. subst b.
  cbn [skipn]. rewrite firstn_all. apply str_of_chars.
Qed.

End WholeFacts.
Import WholeFacts.

Lemma search_confidence (pattern text : string) (m : rmatch) :
  text <> EmptyString ->
  re_search false pattern text = Some m ->
  exists c,
    _calculate_confidence m text pattern = Ok c
    /\ ((group0 m = text /\ c = f1_0)
        \/ (group0 m <> text /\ flt c f1_0 = true)).
Proof.
  intros Ht Hs. destruct (re_search_group _ _ _ Hs) as [Hg | Hl].
  - exists f1_0. split; [now apply whole_text_match_is_certain | now left].
  - destruct (partial_match_below_one m text pattern Hl) as (c & E & Hc).
    exists c. split; [exact E|]. right. split; [|exact Hc].
    intros Hg. rewrite Hg in Hl. lia.
Qed.

Module CertainFacts.

Lemma flt_one_irrefl : flt f1_0 f1_0 = false.
Proof. reflexivity. Qed.

(** The confidence of a candidate: one for a whole match, below one for a
    partial one. *)
Lemma candidate_confidence (t : string) (c : best) :
  In c (candidates t) ->
  exists it g p m,
    In (it, g, p) catalog /\ re_search false p t = Some m
    /\ ((group0 m = t /\ best_confidence c = f1_0)
        \/ (group0 m <> t /\ flt (best_confidence c) f1_0 = true)).
Proof.
  unfold candidates. rewrite in_flat_map. intros ([[it g] p] & Hin & Hc).
  unfold candidate_of in Hc.
  destruct (re_search false p t) as [m|] eqn:Es; [|destruct Hc].
  destruct (_calculate_confidence m t p) as [conf|] eqn:E; [|destruct Hc].
  destruct Hc as [<- | []]. cbn [best_confidence].
  exists it, g, p, m. split; [exact Hin|]. split; [exact Es|].
  pose proof (_calculate_confidence_ok _ _ _ E) as (Ht & _).
  destruct (search_confidence p Ht Es) as (c & Ec & H).
  rewrite E in Ec. injection Ec as <-. exact H.
Qed.

Lemma whole_candidate (t : string) :
  whole_match t = true ->
  exists c, In c (candidates t) /\ best_confidence c = f1_0.
Proof.
  unfold whole_match. rewrite existsb_exists. intros ([[it g] p] & Hin & H).
  destruct (re_search false p t) as [m|] eqn:Es; [|discriminate H].
  apply String.eqb_eq in H.
  assert (Ht : t <> EmptyString).
  { intros ->. pose proof empty_text_unmatched as He. rewrite forallb_forall in He.
    specialize (He _ Hin). cbn beta iota in He. rewrite Es in He. discriminate He. }
  pose proof (whole_text_match_is_certain m p Ht H) as E.
  eexists. split.
  - unfold candidates. apply in_flat_map. exists (it, g, p). split; [exact Hin|].
    unfold candidate_of. rewrite Es, E. left. reflexivity.
  - reflexivity.
Qed.

Lemma whole_match_false (t : string) (it : IntentType) (g : pattern_group)
      (p : string) (m : rmatch) :
  whole_match t = false -> In (it, g, p) catalog -> re_search false p t = Some m ->
  group0 m <> t.
Proof.
  intros Hw Hin Es Hg. unfold whole_match in Hw.
  assert (H : existsb (fun '(_, _, p) =>
                         match re_search false p t with
                         | Some m => String.eqb (group0 m) t
                         | None => false
                         end) catalog = true).
  { apply existsb_exists. exists (it, g, p). split; [exact Hin|].
    rewrite Es. now apply String.eqb_eq. }
  congruence.
Qed.

Lemma flt_asym_one (x : float) : flt x f1_0 = true -> flt f1_0 x = false.
Proof.
  unfold flt, SFltb, f1_0.
  destruct x as [[] | [] | | [] m e]; cbn [SFcompare]; try reflexivity; try discriminate.
  rewrite (Z.compare_antisym e (-52)%Z).
  change (Pos.compare_cont Eq 4503599627370496%positive m)
    with (Pos.compare_cont (CompOpp Eq) 4503599627370496%positive m).
  rewrite <- (Pos.compare_cont_antisym m 4503599627370496%positive Eq).
  destruct (e ?= -52)%Z; cbn [CompOpp]; try reflexivity; try discriminate.
  destruct (Pos.compare_cont Eq m 4503599627370496%positive); cbn [CompOpp];
    reflexivity || discriminate.
Qed.

End CertainFacts.
Import CertainFacts.

(** X13: the recognized confidence is 1.0 exactly for the texts whose
    normalized form is, as a whole, the match of some pattern of the catalog;
    for every other text it is below 1.0. *)
Theorem certain_iff_whole_match (text : string) :
  let t := strip (lower text) in
  exists i,
    recognize_intent text = Ok i
    /\ ((whole_match t = true /\ i_confidence i = f1_0
         /\ catalog_type (i_type i) = true)
        \/ (whole_match t = false /\ flt (i_confidence i) f1_0 = true)).
Proof.
  intros t. unfold recognize_intent. fold t. rewrite classify_pick. cbn [bind].
  eexists. split; [reflexivity|]. cbn [i_type i_confidence].
  destruct (candidates t) as [|c0 l] eqn:E.
  - right. split.
    + destruct (whole_match t) eqn:Ew; [|reflexivity].
      apply whole_candidate in Ew. destruct Ew as (c & Hc & _).
      rewrite E in Hc. destruct Hc.
    + cbn [fold_left best_intent best_init IntentType_eqb].
      destruct (_is_general_chat t); reflexivity.
  - rewrite <- E.
    assert (H : earliest_greatest (fold_left pick (candidates t) best_init) (candidates t)).
    { apply pick_earliest_greatest; [|rewrite E; discriminate].
      rewrite Forall_forall. intros x Hx. now apply candidates_range in Hx. }
    set (b := fold_left pick (candidates t) best_init) in *.
    pose proof (earliest_greatest_in H) as Hb.
    pose proof (candidates_range _ _ Hb) as (Ht & _).
    rewrite (catalog_type_not_unknown _ Ht).
    destruct (candidate_confidence _ _ Hb) as (it & g & p & m & Hin & Es & Hc).
    destruct (whole_match t) eqn:Ew.
    + left. split; [reflexivity|]. split; [|exact Ht].
      destruct Hc as [[_ Hc] | [_ Hc]]; [exact Hc|]. exfalso.
      apply whole_candidate in Ew. destruct Ew as (c & Hcin & Hc1).
      destruct H as (before & after & Hsplit & Hbef & Haft).
      rewrite Hsplit in Hcin. apply in_app_or in Hcin.
      rewrite Forall_forall in Hbef, Haft.
      destruct Hcin as [Hcin | [Heq | Hcin]].
      * specialize (Hbef _ Hcin). rewrite Hc1 in Hbef.
        apply flt_asym_one in Hc. congruence.
      * subst c. rewrite Hc1 in Hc. discriminate Hc.
      * specialize (Haft _ Hcin). rewrite Hc1 in Haft. congruence.
    + right. split; [reflexivity|].
      destruct Hc as [[Hg _] | [_ Hc]]; [|exact Hc].
      exfalso. exact (@whole_match_false t it g p m Ew Hin Es Hg).
Qed.

(** X14: for a match found in a text that is not empty, the confidence is 1.0
    if the match is the whole text, and below 1.0 if not. *)
Theorem confidence_one_iff_whole (pattern text : string) (m : rmatch) :
  text <> EmptyString ->
  re_search false pattern text = Some m ->
  exists c,
    _calculate_confidence m text pattern = Ok c
    /\ ((group0 m = text /\ c = f1_0)
        \/ (group0 m <> text /\ flt c f1_0 = true)).
Proof. apply search_confidence. Qed.

Lemma confidence_one_iff_whole_witness :
  "remind me to call mom" <> EmptyString
  /\ re_search false "(?:remind|alert)\s+me\s+(?:to|about)" "remind me to call mom"
     = Some sample_match
  /\ exists c,
      _calculate_confidence sample_match "remind me to call mom"
        "(?:remind|alert)\s+me\s+(?:to|about)" = Ok c
      /\ flt c f1_0 = true.
Proof.
  assert (H1 : "remind me to call mom" <> EmptyString) by discriminate.
  assert (H2 : re_search false "(?:remind|alert)\s+me\s+(?:to|about)"
                 "remind me to call mom" = Some sample_match)
    by (vm_compute; reflexivity).
  split; [exact H1|]. split; [exact H2|].
  destruct (@confidence_one_iff_whole _ _ _ H1 H2) as (c & E & [[Hg _] | [_ Hc]]).
  - discriminate Hg.
  - exists c. split; assumption.
Defined.

(** X15: [_calculate_confidence] divides by the length of the text: it raises
    on the empty text and on no other; the recognizer never reaches that
    case and returns an intent for every text. *)
Theorem confidence_division_guard (m : rmatch) (text pattern input : string) :
  ((text = EmptyString
    /\ _calculate_confidence m text pattern = Raise "division by zero")
   \/ (text <> EmptyString
       /\ exists c, _calculate_confidence m text pattern = Ok c))
  /\ exists i, recognize_intent input = Ok i /\ raw_text i = input.
Proof.
  split.
  - destruct text as [|a text].
    + left. split; [reflexivity|]. unfold _calculate_confidence, int_truediv.
      cbn [String.length bind]. reflexivity.
    + right. split; [discriminate|].
      destruct (@_calculate_confidence_range m (String a text) pattern ltac:(discriminate))
        as (c & E & _). now exists c.
  - destruct (recognize_intent_cases input) as (i & E & Hr & _). now exists i.
Qed.

Lemma or_empty_requirements (t : IntentType) (a : option string) :
  get_required_entities t (Some (or_empty a)) = get_required_entities t a.
Proof. destruct a as [s|]; [reflexivity|]. now destruct t. Qed.

(** X16: the endpoint that tests the recognition never fails with status
    500, and although it passes the empty string for a missing action, the
    requirements it reports are those the coordinator checks for the intent. *)
Theorem test_endpoint_agrees (request_text : string) :
  exists i,
    recognize_intent request_text = Ok i
    /\ test_intent_recognition request_text
       = Http200 {| t_text := request_text;
                    t_intent_type := value (i_type i);
                    t_confidence := i_confidence i;
                    t_action := action i;
                    t_entities := entities i;
                    t_required_entities := get_required_entities (i_type i) (action i) |}.
Proof.
  destruct (recognize_intent_cases request_text) as (i & E & _).
  exists i. split; [exact E|].
  unfold test_intent_recognition. rewrite E. cbn [bind].
  now rewrite or_empty_requirements.
Qed.

Module PaddingFacts.

Lemma chars_app (a b : string) : chars_of (a ++ b) = (chars_of a ++ chars_of b)%list.
Proof. unfold chars_of. induction a as [|c a IH]; cbn; [reflexivity | now rewrite IH]. Qed.

Lemma all_space_rev (l : list ascii) : all_space (rev l) = all_space l.
Proof.
  unfold all_space. induction l as [|c l IH]; [reflexivity|].
  cbn [rev]. rewrite forallb_app, IH. cbn. rewrite andb_true_r. apply andb_comm.
Qed.

Lemma lstrip_blank_app (p l : list ascii) :
  all_space p = true -> lstrip (p ++ l) = lstrip l.
Proof.
  induction p as [|c p IH]; [reflexivity|]. intros H.
  apply all_space_tail in H. destruct H as [Hc Hp]. cbn. rewrite Hc. now apply IH.
Qed.

Lemma rstrip_app_blank (l q : list ascii) :
  all_space q = true -> rstrip (l ++ q) = rstrip l.
Proof.
  intros H. unfold rstrip. rewrite rev_app_distr, lstrip_blank_app; [reflexivity|].
  now rewrite all_space_rev.
Qed.

Lemma lstrip_app_blank (l q : list ascii) :
  all_space q = true ->
  lstrip (l ++ q) = if all_space l then [] else (lstrip l ++ q)%list.
Proof.
  intros Hq. induction l as [|c l IH]; cbn [app lstrip all_space forallb].
  - now apply lstrip_blank.
  - fold (all_space l). destruct (isspace c); cbn [andb]; [exact IH | reflexivity].
Qed.

Lemma all_space_lower (l : list ascii) : all_space (map lower_char l) = all_space l.
Proof.
  unfold all_space. induction l as [|c l IH]; [reflexivity|].
  cbn. now rewrite CaseFacts.isspace_lower, IH.
Qed.

(** Whitespace around a text is dropped by the normalization. *)
Lemma normalize_padding (pre t post : string) :
  blank pre = true -> blank post = true ->
  strip (lower (pre ++ t ++ post)) = strip (lower t).
Proof.
  unfold blank. intros Hpre Hpost. unfold strip, lower. f_equal.
  unfold chars_of at 1 3. unfold str_of. rewrite !list_ascii_of_string_of_list_ascii.
  rewrite !chars_app, !map_app.
  assert (H1 : all_space (map lower_char (chars_of pre)) = true)
    by now rewrite all_space_lower.
  assert (H2 : all_space (map lower_char (chars_of post)) = true)
    by now rewrite all_space_lower.
  rewrite (@lstrip_blank_app _ _ H1), (@lstrip_app_blank _ _ H2).
  destruct (all_space (map lower_char (chars_of t))) eqn:Et.
  - now rewrite (@lstrip_blank _ Et).
  - now apply rstrip_app_blank.
Qed.

End PaddingFacts.
Import PaddingFacts.

(** X17: whitespace before and after a text does not change its type,
    confidence and action. *)
Theorem recognition_ignores_padding (pre t post : string) :
  blank pre = true -> blank post = true ->
  exists i1 i2,
    recognize_intent (pre ++ t ++ post) = Ok i1 /\ recognize_intent t = Ok i2
    /\ verdict i1 = verdict i2.
Proof.
  intros Hpre Hpost. unfold recognize_intent.
  rewrite (normalize_padding pre t post Hpre Hpost).
  destruct (classify_cases (strip (lower t))) as (b & -> & _). cbn [bind].
  do 2 eexists. split; [reflexivity|]. split; reflexivity.
Qed.

Lemma recognition_ignores_padding_witness :
  blank "  " = true /\ blank " " = true
  /\ exists i1 i2,
      recognize_intent ("  " ++ "schedule a meeting" ++ " ") = Ok i1
      /\ recognize_intent "schedule a meeting" = Ok i2
      /\ verdict i1 = verdict i2.
Proof.
  split; [reflexivity|]. split; [reflexivity|].
  apply (@recognition_ignores_padding "  " "schedule a meeting" " "); reflexivity.
Defined.
